(** * A GPT-2 language model: forward pass, initialisation and checkpoint import

    Shallow embedding of [train_gpt-2.py]: the classes [CausalSelfAttention],
    [MLP], [Block], [GPTConfig] and [GPT], their [forward] methods, the
    initialisation hook [_init_weights] and the copy loop of
    [GPT.from_pretrained].

    The numeric substrate (torch's floating-point scalars and the elementwise
    library functions on them) is an interface, [Substrate]; every statement
    about data flow holds for each implementation of it.  The ideal
    real-number implementation [Real] is used where a statement needs
    concrete numbers. *)

From Stdlib Require Import Reals QArith Lra.
From stdpp Require Import gmap strings list pretty.

Local Open Scope nat_scope.

(** ** Numeric substrate *)

(** The scalars of a float tensor and the primitive operations torch
    performs on them. *)
Class Substrate := {
  scalar : Type;
  fzero : scalar;
  fone : scalar;
  fadd : scalar → scalar → scalar;
  fsub : scalar → scalar → scalar;
  fmul : scalar → scalar → scalar;
  fdiv : scalar → scalar → scalar;
  fmax : scalar → scalar → scalar;
  fpow : scalar → scalar → scalar;
  fsqrt : scalar → scalar;
  fexp : scalar → scalar;
  flog : scalar → scalar;
  (** the elementwise function of [nn.GELU(approximate="tanh")] *)
  gelu_tanh : scalar → scalar;
  (** the float a Python literal denotes, and int-to-float conversion *)
  flit : Q → scalar;
  of_nat : nat → scalar;
}.

(** ** Python exceptions *)

Inductive error :=
  | AssertionError (msg : string)
  | IndexError
  | KeyError (key : string)
  | ValueError
  | RuntimeError
  | ZeroDivisionError.

Inductive result (A : Type) :=
  | Ok (a : A)
  | Err (e : error).
Arguments Ok {A} a.
Arguments Err {A} e.

Global Instance result_ret : MRet result := λ A, Ok.
Global Instance result_bind : MBind result := λ A B f r,
  match r with Ok a => f a | Err e => Err e end.
Global Instance result_fmap : FMap result := λ A B f r,
  match r with Ok a => Ok (f a) | Err e => Err e end.

(** ** Tensors *)

(** A parameter tensor: its shape and its entries in row-major order. *)
Record Tensor {Sub : Substrate} := mkTensor {
  shape : list nat;
  data : list scalar;
}.

Global Instance Tensor_inhabited {Sub : Substrate} : Inhabited Tensor :=
  populate (mkTensor Sub [] []).

(** Activations are nested lists: a feature vector, a sequence of [T]
    feature vectors, a batch of [B] sequences. *)
Abbreviation Vec := (list scalar).
Abbreviation Act3 := (list (list (list scalar))).

(** [f] applied at every position of every sequence of a batch *)
Definition at_positions {A B} (f : A → B) (x : list (list A)) : list (list B) :=
  (λ row : list A, f <$> row) <$> x.

Section Activations.
Context {Sub : Substrate}.

Definition numel (sh : list nat) : nat := foldr Nat.mul 1 sh.

Definition Tensor_wf (t : Tensor) : Prop := length (data t) = numel (shape t).

(** The rows of a 2-D tensor. *)
Definition rows (t : Tensor) : list Vec :=
  match shape t with
  | [r; c] => reshape (replicate r c) (data t)
  | _ => []
  end.

Definition vsum (v : Vec) : scalar := foldr fadd fzero v.
Definition dot (a b : Vec) : scalar := vsum (zip_with fmul a b).
Definition vadd (a b : Vec) : Vec := zip_with fadd a b.
Definition vmax (v : Vec) : scalar :=
  match v with [] => fzero | x :: r => foldr fmax x r end.

(** [a + b] on two activations of one shape. *)
Definition add3 (a b : Act3) : Act3 := zip_with (zip_with vadd) a b.

(** [x.size()] of a 2-D integer tensor given as its (rectangular) rows; a
    tensor with no row is taken to have [T = 0]. *)
Definition size2 {A} (x : list (list A)) : nat * nat :=
  (length x, match x with r :: _ => length r | [] => 0 end).

(** [x.size()] of a 3-D activation. *)
Definition size3 (x : Act3) : nat * nat * nat :=
  (length x,
   match x with r :: _ => length r | [] => 0 end,
   match x with (v :: _) :: _ => length v | _ => 0 end).

(** *** Library layers *)

(** The row-wise softmax, computed stably (row maximum subtracted). *)
Definition softmax (v : Vec) : Vec :=
  let m := vmax v in
  let e := fmap (λ x, fexp (fsub x m)) v in
  let z := vsum e in
  fmap (λ x, fdiv x z) e.

(** [F.scaled_dot_product_attention(q, k, v, is_causal=True)] on one head:
    position [t] attends to the positions [0..t]; the masked positions
    have weight zero and are left out of the weighted sum. *)
Definition weighted_sum (d : nat) (p : Vec) (v : list Vec) : Vec :=
  foldr vadd (replicate d fzero) (zip_with (λ w u, fmap (fmul w) u) p v).

Definition sdpa_row (d : nat) (t : nat) (qt : Vec) (k v : list Vec) : Vec :=
  let scale := fdiv fone (fsqrt (of_nat d)) in
  let scores := fmap (λ ks, fmul (dot qt ks) scale) (take (S t) k) in
  weighted_sum d (softmax scores) (take (S t) v).

Definition scaled_dot_product_attention_head (d : nat) (q k v : list Vec)
  : list Vec :=
  imap (λ t qt, sdpa_row d t qt k v) q.

(** over the batch and head axes *)
Definition scaled_dot_product_attention (d : nat)
    (q k v : list (list (list Vec))) : list (list (list Vec)) :=
  zip_with (λ qb kvb,
    zip_with (λ qh kvh, scaled_dot_product_attention_head d qh kvh.1 kvh.2)
             qb (zip kvb.1 kvb.2))
    q (zip k v).

(** [torch.split(qkv, n, dim=2)] into three chunks of width [n]. *)
Definition split3 (n : nat) (qkv : Act3) : Act3 * Act3 * Act3 :=
  (at_positions (take n) qkv,
   at_positions (λ u, take n (drop n u)) qkv,
   at_positions (λ u, take n (drop (2 * n) u)) qkv).

(** [x.view(B, T, nh, hs).transpose(1, 2)]: shape [(B, nh, T, hs)]. *)
Definition to_heads (nh hs : nat) (x : Act3) : list (list (list Vec)) :=
  fmap (λ xb : list Vec,
        fmap (λ hd, fmap (λ u : Vec, take hs (drop (hd * hs) u)) xb) (seq 0 nh)) x.

(** [y.transpose(1, 2).contiguous().view(B, T, C)]. *)
Definition from_heads (T : nat) (y : list (list (list Vec))) : Act3 :=
  fmap (λ yb : list (list Vec),
        fmap (λ t, concat (omap (λ yh : list Vec, yh !! t) yb)) (seq 0 T)) y.
End Activations.

(** ** Layers of the library: [nn.Linear], [nn.LayerNorm], [nn.Embedding]

    A module is parameterised by what its parameter slots hold: tensors (the
    values [forward] computes with) or references into the parameter store
    (the object graph that [__init__] builds, in which two slots can hold
    one tensor). *)

Module Linear.
Record t (P : Type) := mk {
  weight : P;
  bias : option P;
  (** the attribute some constructors attach; [None] when absent *)
  NANOGPT_SCALE_INIT : option nat;
}.
Arguments mk {P} _ _ _.
Arguments weight {P} _.
Arguments bias {P} _.
Arguments NANOGPT_SCALE_INIT {P} _.

Section forward.
Context {Sub : Substrate}.

(** [x @ W^T + b] on one feature vector *)
Definition forward_vec (l : t Tensor) (x : Vec) : Vec :=
  let y := fmap (dot x) (rows (weight l)) in
  match bias l with
  | Some b => vadd y (data b)
  | None => y
  end.

Definition forward (l : t Tensor) (x : Act3) : Act3 :=
  at_positions (forward_vec l) x.
End forward.
End Linear.

Module LayerNorm.
Record t (P : Type) := mk {
  weight : P;
  bias : P;
}.
Arguments mk {P} _ _.
Arguments weight {P} _.
Arguments bias {P} _.

Section forward.
Context {Sub : Substrate}.

(** the default [eps] of [nn.LayerNorm] *)
Definition eps : scalar := flit (1 # 100000).

Definition forward_vec (l : t Tensor) (x : Vec) : Vec :=
  let n := of_nat (length x) in
  let mean := fdiv (vsum x) n in
  let xc := fmap (λ a, fsub a mean) x in
  let var := fdiv (vsum (fmap (λ a, fmul a a) xc)) n in
  let std := fsqrt (fadd var eps) in
  vadd (zip_with fmul (fmap (λ a, fdiv a std) xc) (data (weight l)))
       (data (bias l)).

Definition forward (l : t Tensor) (x : Act3) : Act3 :=
  at_positions (forward_vec l) x.
End forward.
End LayerNorm.

Module Embedding.
Record t (P : Type) := mk {
  weight : P;
}.
Arguments mk {P} _.
Arguments weight {P} _.

Section forward.
Context {Sub : Substrate}.

(** the row of the table at one index; an index outside the table
    raises *)
Definition forward (e : t Tensor) (i : Z) : result Vec :=
  if decide (0 ≤ i)%Z then
    match rows (weight e) !! Z.to_nat i with
    | Some v => Ok v
    | None => Err IndexError
    end
  else Err IndexError.
End forward.
End Embedding.

(** [F.cross_entropy(input, target)] with its defaults: mean reduction, and
    the targets equal to [ignore_index = -100] left out. *)
Section cross_entropy.
Context {Sub : Substrate}.

Definition log_softmax (x : Vec) : Vec :=
  let m := vmax x in
  let z := vsum (fmap (λ a, fexp (fsub a m)) x) in
  fmap (λ a, fsub (fsub a m) (flog z)) x.

(** the negative log-likelihood of class [c] *)
Definition nll (x : Vec) (c : nat) : option scalar :=
  (λ l, fsub fzero l) <$> log_softmax x !! c.

Definition nll_term (xt : Vec * Z) : result (option scalar) :=
  let '(x, t) := xt in
  if decide (t = -100)%Z then Ok None
  else if decide (0 ≤ t)%Z then
    match nll x (Z.to_nat t) with
    | Some l => Ok (Some l)
    | None => Err IndexError
    end
  else Err IndexError.

Definition cross_entropy (input : list Vec) (target : list Z) : result scalar :=
  if decide (length input = length target) then
    terms ← mapM nll_term (zip input target);
    let kept := omap (λ o, o) terms in
    Ok (fdiv (vsum kept) (of_nat (length kept)))
  else Err ValueError.
End cross_entropy.

(** ** The classes of the model *)

Module CausalSelfAttention.
Record t (P : Type) := mk {
  c_attn : Linear.t P;
  c_proj : Linear.t P;
  n_embd : nat;
  n_head : nat;
}.
Arguments mk {P} _ _ _ _.
Arguments c_attn {P} _.
Arguments c_proj {P} _.
Arguments n_embd {P} _.
Arguments n_head {P} _.

Section forward.
Context {Sub : Substrate}.

(** lines 23-34: the per-head attention result, reassembled to
    [(B, T, C)] *)
Definition attention (a : t Tensor) (x : Act3) : Act3 :=
  let '(B, T, C) := size3 x in
  let qkv := Linear.forward (c_attn a) x in
  let '(q, k, v) := split3 (n_embd a) qkv in
  let q := to_heads (n_head a) (C / n_head a) q in
  let k := to_heads (n_head a) (C / n_head a) k in
  let v := to_heads (n_head a) (C / n_head a) v in
  let y := scaled_dot_product_attention (C / n_head a) q k v in
  from_heads T y.

Definition forward (a : t Tensor) (x : Act3) : Act3 :=
  let y := attention a x in
  let y := Linear.forward (c_proj a) x in
  y.
End forward.
End CausalSelfAttention.

Module MLP.
Record t (P : Type) := mk {
  c_fc : Linear.t P;
  c_proj : Linear.t P;
}.
Arguments mk {P} _ _.
Arguments c_fc {P} _.
Arguments c_proj {P} _.

Section forward.
Context {Sub : Substrate}.

Definition gelu (x : Act3) : Act3 := at_positions (fmap gelu_tanh) x.

Definition forward (m : t Tensor) (x : Act3) : Act3 :=
  let x := Linear.forward (c_fc m) x in
  let x := gelu x in
  let x := Linear.forward (c_proj m) x in
  x.
End forward.
End MLP.

Module Block.
Record t (P : Type) := mk {
  ln_1 : LayerNorm.t P;
  attn : CausalSelfAttention.t P;
  ln_2 : LayerNorm.t P;
  mlp : MLP.t P;
}.
Arguments mk {P} _ _ _ _.
Arguments ln_1 {P} _.
Arguments attn {P} _.
Arguments ln_2 {P} _.
Arguments mlp {P} _.

Section forward.
Context {Sub : Substrate}.

Definition forward (b : t Tensor) (x : Act3) : Act3 :=
  let x := add3 x (CausalSelfAttention.forward (attn b)
                     (LayerNorm.forward (ln_1 b) x)) in
  let x := add3 x (MLP.forward (mlp b) (LayerNorm.forward (ln_2 b) x)) in
  x.
End forward.
End Block.

Record GPTConfig := mkGPTConfig {
  block_size : nat;
  vocab_size : nat;
  n_layer : nat;
  n_head : nat;
  n_embd : nat;
}.

(** the dataclass defaults *)
Definition GPTConfig_default : GPTConfig :=
  {| block_size := 1024; vocab_size := 50257; n_layer := 12; n_head := 12;
     n_embd := 768 |}.

Module GPT.
(** the [nn.ModuleDict] held in [self.transformer] *)
Record transformer_t (P : Type) := mk_transformer {
  wte : Embedding.t P;
  wpe : Embedding.t P;
  h : list (Block.t P);
  ln_f : LayerNorm.t P;
}.
Arguments mk_transformer {P} _ _ _ _.
Arguments wte {P} _.
Arguments wpe {P} _.
Arguments h {P} _.
Arguments ln_f {P} _.

Record t (P : Type) := mk {
  config : GPTConfig;
  transformer : transformer_t P;
  lm_head : Linear.t P;
}.
Arguments mk {P} _ _ _.
Arguments config {P} _.
Arguments transformer {P} _.
Arguments lm_head {P} _.

Section forward.
Context {Sub : Substrate}.

(** the message of the assertion on line 115 *)
Definition capacity_message (T bs : nat) : string :=
  "Cannot forward sequence of length " +:+ pretty T +:+
  ", block size is only " +:+ pretty bs.

(** lines 124-125 *)
Definition head (m : t Tensor) (x : Act3) : Act3 :=
  let logits := LayerNorm.forward (ln_f (transformer m)) x in
  Linear.forward (lm_head m) logits.

Definition forward (m : t Tensor) (idx : list (list Z))
    (targets : option (list (list Z))) : result (Act3 * option scalar) :=
  let '(B, T) := size2 idx in
  if decide (T < block_size (config m)) then
    let pos := Z.of_nat <$> seq 0 T in
    pos_embd ← mapM (Embedding.forward (wpe (transformer m))) pos;
    tok_embd ← mapM (mapM (Embedding.forward (wte (transformer m)))) idx;
    let x := fmap (λ tok : list Vec, zip_with vadd pos_embd tok) tok_embd in
    let x := foldl (λ x block, Block.forward block x) x (h (transformer m)) in
    let logits := head m x in
    loss ← match targets with
           | None => Ok None
           | Some targets =>
               Some <$> cross_entropy (concat logits) (concat targets)
           end;
    Ok (logits, loss)
  else
    Err (AssertionError
           (capacity_message T (block_size (config m)))).
End forward.
End GPT.

(** ** The ideal substrate: real numbers *)

Definition R_gelu_tanh (x : R) : R :=
  (0.5 * x * (1 + tanh (sqrt (2 / PI) * (x + 0.044715 * (x * x * x)))))%R.

Global Instance Real : Substrate := {|
  scalar := R;
  fzero := 0%R;
  fone := 1%R;
  fadd := Rplus;
  fsub := Rminus;
  fmul := Rmult;
  fdiv := Rdiv;
  fmax := Rmax;
  fpow := Rpower;
  fsqrt := sqrt;
  fexp := exp;
  flog := ln;
  gelu_tanh := R_gelu_tanh;
  flit := Q2R;
  of_nat := INR;
|}.

(** A one-dimensional, one-head attention layer whose query/key/value
    projection is zero and whose output projection is the identity. *)
Definition attn_example : CausalSelfAttention.t (@Tensor Real) :=
  {| CausalSelfAttention.c_attn :=
       Linear.mk (mkTensor Real [3; 1] [0; 0; 0]%R)
                 (Some (mkTensor Real [3] [0; 0; 0]%R)) None;
     CausalSelfAttention.c_proj :=
       Linear.mk (mkTensor Real [1; 1] [1%R])
                 (Some (mkTensor Real [1] [0%R])) (Some 1);
     CausalSelfAttention.n_embd := 1;
     CausalSelfAttention.n_head := 1 |}.

Definition x_example : list (list (list R)) := [[[1%R]]].

(** ** The parameter store

    A parameter is a tensor object on the heap; a module holds references to
    its parameters, and two modules may hold the same reference. *)

Definition loc := nat.

(** What [__init__] has allocated so far: the next free reference and the
    shape of every tensor created. *)
Record layout := mkLayout {
  next : loc;
  shapes : gmap loc (list nat);
}.

Definition empty_layout : layout := {| next := 0; shapes := ∅ |}.

(** Construction: allocation of parameters, with the assertions of the
    constructors. *)
Definition Init (A : Type) : Type := layout → result (A * layout).

Definition init_ret {A} (a : A) : Init A := λ s, Ok (a, s).
Definition init_bind {A B} (m : Init A) (f : A → Init B) : Init B :=
  λ s, match m s with
       | Ok (a, s') => f a s'
       | Err e => Err e
       end.
Definition init_fail {A} (e : error) : Init A := λ _, Err e.

Notation "x ←ᵢ m ;; k" := (init_bind m (λ x, k))
  (at level 100, m at next level, right associativity).

Definition new_parameter (sh : list nat) : Init loc :=
  λ s, Ok (next s, {| next := S (next s); shapes := <[next s := sh]> (shapes s) |}).

Fixpoint init_repeat {A} (n : nat) (m : Init A) : Init (list A) :=
  match n with
  | 0 => init_ret []
  | S n => a ←ᵢ m ;; r ←ᵢ init_repeat n m ;; init_ret (a :: r)
  end.

(** [nn.Linear(in_features, out_features)] *)
Definition Linear_new (in_features out_features : nat) : Init (Linear.t loc) :=
  w ←ᵢ new_parameter [out_features; in_features] ;;
  b ←ᵢ new_parameter [out_features] ;;
  init_ret (Linear.mk w (Some b) None).

(** [nn.Embedding(num_embeddings, embedding_dim)] *)
Definition Embedding_new (num_embeddings embedding_dim : nat)
  : Init (Embedding.t loc) :=
  w ←ᵢ new_parameter [num_embeddings; embedding_dim] ;;
  init_ret (Embedding.mk w).

(** [nn.LayerNorm(normalized_shape)] *)
Definition LayerNorm_new (n : nat) : Init (LayerNorm.t loc) :=
  w ←ᵢ new_parameter [n] ;;
  b ←ᵢ new_parameter [n] ;;
  init_ret (LayerNorm.mk w b).

(** [module.NANOGPT_SCALE_INIT = v] *)
Definition set_NANOGPT_SCALE_INIT {P} (l : Linear.t P) (v : nat) : Linear.t P :=
  Linear.mk (Linear.weight l) (Linear.bias l) (Some v).

(** [CausalSelfAttention.__init__] *)
Definition CausalSelfAttention_new (config : GPTConfig)
  : Init (CausalSelfAttention.t loc) :=
  if decide (n_head config = 0) then init_fail ZeroDivisionError
  else if decide (n_embd config `mod` n_head config = 0) then
    c_attn ←ᵢ Linear_new (n_embd config) (3 * n_embd config) ;;
    c_proj ←ᵢ Linear_new (n_embd config) (n_embd config) ;;
    let c_proj := set_NANOGPT_SCALE_INIT c_proj 1 in
    init_ret (CausalSelfAttention.mk c_attn c_proj (n_embd config) (n_head config))
  else init_fail (AssertionError "").

(** [MLP.__init__] *)
Definition MLP_new (config : GPTConfig) : Init (MLP.t loc) :=
  c_fc ←ᵢ Linear_new (n_embd config) (4 * n_embd config) ;;
  c_proj ←ᵢ Linear_new (4 * n_embd config) (n_embd config) ;;
  let c_proj := set_NANOGPT_SCALE_INIT c_proj 1 in
  init_ret (MLP.mk c_fc c_proj).

(** [Block.__init__] *)
Definition Block_new (config : GPTConfig) : Init (Block.t loc) :=
  ln_1 ←ᵢ LayerNorm_new (n_embd config) ;;
  attn ←ᵢ CausalSelfAttention_new config ;;
  ln_2 ←ᵢ LayerNorm_new (n_embd config) ;;
  mlp ←ᵢ MLP_new config ;;
  init_ret (Block.mk ln_1 attn ln_2 mlp).

(** [GPT.__init__], lines 88-97: the modules are created, then the token
    embedding's [weight] slot is rebound to the tensor of [lm_head.weight]. *)
Definition GPT_new (config : GPTConfig) : Init (GPT.t loc) :=
  wte ←ᵢ Embedding_new (vocab_size config) (n_embd config) ;;
  wpe ←ᵢ Embedding_new (block_size config) (n_embd config) ;;
  h ←ᵢ init_repeat (n_layer config) (Block_new config) ;;
  ln_f ←ᵢ LayerNorm_new (n_embd config) ;;
  lm_head ←ᵢ Linear_new (n_embd config) (vocab_size config) ;;
  let wte := Embedding.mk (Linear.weight lm_head) in
  init_ret (GPT.mk config (GPT.mk_transformer wte wpe h ln_f) lm_head).

(** *** Traversal of the module tree *)

(** What [isinstance] distinguishes in [_init_weights]. *)
Inductive module (P : Type) :=
  | IsLinear (l : Linear.t P)
  | IsEmbedding (e : Embedding.t P)
  | IsLayerNorm (l : LayerNorm.t P)
  | IsOther.
Arguments IsLinear {P} l.
Arguments IsEmbedding {P} e.
Arguments IsLayerNorm {P} l.
Arguments IsOther {P}.

(** The modules in the order [nn.Module.apply] visits them: the children in
    registration order, then the module itself. *)
Section modules.
Context {P : Type}.

Definition CausalSelfAttention_modules (a : CausalSelfAttention.t P)
  : list (module P) :=
  [IsLinear (CausalSelfAttention.c_attn a);
   IsLinear (CausalSelfAttention.c_proj a);
   IsOther].

Definition MLP_modules (m : MLP.t P) : list (module P) :=
  [IsLinear (MLP.c_fc m); IsOther; IsLinear (MLP.c_proj m); IsOther].

Definition Block_modules (b : Block.t P) : list (module P) :=
  [IsLayerNorm (Block.ln_1 b)] ++
  CausalSelfAttention_modules (Block.attn b) ++
  [IsLayerNorm (Block.ln_2 b)] ++
  MLP_modules (Block.mlp b) ++
  [IsOther].

Definition GPT_modules (g : GPT.t P) : list (module P) :=
  let tr := GPT.transformer g in
  [IsEmbedding (GPT.wte tr); IsEmbedding (GPT.wpe tr)] ++
  (flat_map Block_modules (GPT.h tr) ++ [IsOther]) ++
  [IsLayerNorm (GPT.ln_f tr); IsOther] ++
  [IsLinear (GPT.lm_head g); IsOther].
End modules.

(** *** Initialisation *)

Section init.
Context {Sub : Substrate}.

(** The calls into [torch.nn.init]. *)
Inductive init_call :=
  | normal_ (tensor : loc) (mean std : scalar)
  | zeros_ (tensor : loc).

Definition _init_weights (config : GPTConfig) (m : module loc)
  : list init_call :=
  match m with
  | IsLinear l =>
      let std := flit (2 # 100) in
      let std :=
        match Linear.NANOGPT_SCALE_INIT l with
        | Some _ => fmul std (fpow (of_nat (2 * n_layer config)) (flit (- (1 # 2))))
        | None => std
        end in
      normal_ (Linear.weight l) (flit 0) std ::
      match Linear.bias l with
      | Some b => [zeros_ b]
      | None => []
      end
  | IsEmbedding e => [normal_ (Embedding.weight e) (flit 0) (flit (2 # 100))]
  | _ => []
  end.

(** [self.apply(self._init_weights)]: the calls made, in order. *)
Definition GPT_apply_init_weights (g : GPT.t loc) : list init_call :=
  flat_map (_init_weights (GPT.config g)) (GPT_modules g).

(** [GPT(config)]: the object graph, what was allocated, and the
    initialisation calls made on it. *)
Definition GPT_init (config : GPTConfig)
  : result (GPT.t loc * layout * list init_call) :=
  match GPT_new config empty_layout with
  | Ok (g, s) => Ok (g, s, GPT_apply_init_weights g)
  | Err e => Err e
  end.
End init.

(** *** [state_dict()] *)

(** The entries of [state_dict()], in order: own parameters, then the
    children's, each name prefixed by the path to its module.  A tensor held
    by two slots is listed under both names. *)
Section state_dict.
Context {P : Type}.

Definition Linear_state_dict (prefix : string) (l : Linear.t P)
  : list (string * P) :=
  (prefix +:+ "weight", Linear.weight l) ::
  match Linear.bias l with
  | Some b => [(prefix +:+ "bias", b)]
  | None => []
  end.

Definition LayerNorm_state_dict (prefix : string) (l : LayerNorm.t P)
  : list (string * P) :=
  [(prefix +:+ "weight", LayerNorm.weight l);
   (prefix +:+ "bias", LayerNorm.bias l)].

Definition Embedding_state_dict (prefix : string) (e : Embedding.t P)
  : list (string * P) :=
  [(prefix +:+ "weight", Embedding.weight e)].

Definition CausalSelfAttention_state_dict (prefix : string)
    (a : CausalSelfAttention.t P) : list (string * P) :=
  Linear_state_dict (prefix +:+ "c_attn.") (CausalSelfAttention.c_attn a) ++
  Linear_state_dict (prefix +:+ "c_proj.") (CausalSelfAttention.c_proj a).

Definition MLP_state_dict (prefix : string) (m : MLP.t P)
  : list (string * P) :=
  Linear_state_dict (prefix +:+ "c_fc.") (MLP.c_fc m) ++
  Linear_state_dict (prefix +:+ "c_proj.") (MLP.c_proj m).

Definition Block_state_dict (prefix : string) (b : Block.t P)
  : list (string * P) :=
  LayerNorm_state_dict (prefix +:+ "ln_1.") (Block.ln_1 b) ++
  CausalSelfAttention_state_dict (prefix +:+ "attn.") (Block.attn b) ++
  LayerNorm_state_dict (prefix +:+ "ln_2.") (Block.ln_2 b) ++
  MLP_state_dict (prefix +:+ "mlp.") (Block.mlp b).

Definition GPT_state_dict (g : GPT.t P) : list (string * P) :=
  let tr := GPT.transformer g in
  Embedding_state_dict "transformer.wte." (GPT.wte tr) ++
  Embedding_state_dict "transformer.wpe." (GPT.wpe tr) ++
  concat (imap (λ i b, Block_state_dict
                         ("transformer.h." +:+ pretty i +:+ ".") b)
               (GPT.h tr)) ++
  LayerNorm_state_dict "transformer.ln_f." (GPT.ln_f tr) ++
  Linear_state_dict "lm_head." (GPT.lm_head g).
End state_dict.

(** [d[k]] on a dictionary given as its items *)
Fixpoint getitem {V} (d : list (string * V)) (k : string) : result V :=
  match d with
  | [] => Err (KeyError k)
  | (k', v) :: d => if String.eqb k' k then Ok v else getitem d k
  end.

(** the table [config_args] of [from_pretrained], completed with the fixed
    vocabulary and context sizes *)
Definition config_args (model_type : string) : option GPTConfig :=
  if String.eqb model_type "gpt2" then
    Some (mkGPTConfig 1024 50257 12 12 768)
  else if String.eqb model_type "gpt2-medium" then
    Some (mkGPTConfig 1024 50257 24 16 1024)
  else if String.eqb model_type "gpt2-large" then
    Some (mkGPTConfig 1024 50257 36 20 1280)
  else if String.eqb model_type "gpt2-xl" then
    Some (mkGPTConfig 1024 50257 48 25 1600)
  else None.

(** [s.endswith(w)] *)
Definition endswith (s w : string) : bool :=
  (String.length w <=? String.length s) &&
  String.eqb (String.substring (String.length s - String.length w) (String.length w) s) w.

(** ** Checkpoint import *)

Section import.
Context {Sub : Substrate}.

Local Abbreviation store := (gmap loc Tensor).

(** Statements that update the store and may raise; what was written
    before an exception stays written. *)
Definition Import (A : Type) : Type := store → result A * store.

Definition imp_ret {A} (a : A) : Import A := λ st, (Ok a, st).
Definition imp_bind {A B} (m : Import A) (f : A → Import B) : Import B :=
  λ st, match m st with
        | (Ok a, st') => f a st'
        | (Err e, st') => (Err e, st')
        end.
Definition imp_lift {A} (r : result A) : Import A := λ st, (r, st).
Definition imp_assert (b : bool) (msg : string) : Import unit :=
  λ st, (if b then Ok () else Err (AssertionError msg), st).
(** the tensor behind a reference *)
Definition imp_deref (l : loc) : Import Tensor :=
  λ st, (Ok (st !!! l), st).

Notation "x ←ₛ m ;; k" := (imp_bind m (λ x, k))
  (at level 100, m at next level, right associativity).
Notation "m ;;ₛ k" := (imp_bind m (λ _, k))
  (at level 100, right associativity).

Fixpoint imp_for {A} (l : list A) (body : A → Import unit) : Import unit :=
  match l with
  | [] => imp_ret ()
  | a :: l => body a ;;ₛ imp_for l body
  end.

(** [x.t()]: the transpose of a tensor of at most two dimensions *)
Definition Tensor_t (x : Tensor) : result Tensor :=
  match shape x with
  | [] | [_] => Ok x
  | [r; c] =>
      Ok (mkTensor Sub [c; r]
            (flat_map (λ j, omap (λ row, row !! j) (rows x)) (seq 0 c)))
  | _ => Err RuntimeError
  end.

(** [dst.copy_(src)] for a source of the destination's shape (the only
    case the import reaches; broadcasting is not modelled) *)
Definition copy_ (dst : loc) (src : Tensor) : Import unit :=
  d ←ₛ imp_deref dst ;;
  if decide (shape src = shape d) then
    λ st, (Ok (), <[dst := mkTensor Sub (shape d) (data src)]> st)
  else imp_lift (Err RuntimeError).

Definition transposed : list string :=
  ["attn.c_attn.weight"; "attn.c_proj.weight"; "mlp.c_fc.weight";
   "mlp.c_proj.weight"].

(** [any(k.endswith(w) for w in transposed)] *)
Definition is_transposed (k : string) : bool :=
  existsb (λ w, endswith k w) transposed.

(** the body of the loop on lines 168-178 *)
Definition import_param (sd : list (string * loc))
    (sd_hf : list (string * Tensor)) (k : string) : Import unit :=
  if is_transposed k then
    src ←ₛ imp_lift (getitem sd_hf k) ;;
    dst ←ₛ imp_lift (getitem sd k) ;;
    d ←ₛ imp_deref dst ;;
    imp_assert (bool_decide (rev (shape src) = shape d)) "" ;;ₛ
    srct ←ₛ imp_lift (Tensor_t src) ;;
    copy_ dst srct
  else
    src ←ₛ imp_lift (getitem sd_hf k) ;;
    dst ←ₛ imp_lift (getitem sd k) ;;
    d ←ₛ imp_deref dst ;;
    imp_assert (bool_decide (shape src = shape d)) "" ;;ₛ
    copy_ dst src.

(** [sd_keys] and [sd_keys_hf] after the filters of lines 154, 162, 163 *)
Definition local_keys {V} (sd : list (string * V)) : list string :=
  let sd_keys := sd.*1 in
  filter (λ k, ¬ endswith k ".attn.bias") sd_keys.

Definition foreign_keys {V} (sd_hf : list (string * V)) : list string :=
  let sd_keys_hf := sd_hf.*1 in
  let sd_keys_hf := filter (λ k, ¬ endswith k ".attn.masked_bias") sd_keys_hf in
  filter (λ k, ¬ endswith k ".attn.bias") sd_keys_hf.

Definition mismatched_keys_message (n_hf n : nat) : string :=
  "mismatched keys: " +:+ pretty n_hf +:+ " != " +:+ pretty n.

(** [GPT.from_pretrained] from line 152 on: [model] is the freshly
    constructed [GPT(config_args[model_type])] and [sd_hf] the state
    dictionary of the foreign model, both obtained on the lines before. *)
Definition from_pretrained (model : GPT.t loc)
    (sd_hf : list (string * Tensor)) : Import (GPT.t loc) :=
  let sd := GPT_state_dict model in
  let sd_keys := local_keys sd in
  let sd_keys_hf := foreign_keys sd_hf in
  imp_assert (bool_decide (length sd_keys_hf = length sd_keys))
    (mismatched_keys_message (length sd_keys_hf) (length sd_keys)) ;;ₛ
  imp_for sd_keys_hf (import_param sd sd_hf) ;;ₛ
  imp_ret model.
End import.

(** ** From the object graph to the values [forward] computes with

    Every parameter slot is read through its reference. *)

Section deref.
Context {P Q : Type} (f : P → Q).

Definition Linear_map (l : Linear.t P) : Linear.t Q :=
  Linear.mk (f (Linear.weight l)) (f <$> Linear.bias l)
            (Linear.NANOGPT_SCALE_INIT l).

Definition LayerNorm_map (l : LayerNorm.t P) : LayerNorm.t Q :=
  LayerNorm.mk (f (LayerNorm.weight l)) (f (LayerNorm.bias l)).

Definition Embedding_map (e : Embedding.t P) : Embedding.t Q :=
  Embedding.mk (f (Embedding.weight e)).

Definition CausalSelfAttention_map (a : CausalSelfAttention.t P)
  : CausalSelfAttention.t Q :=
  CausalSelfAttention.mk
    (Linear_map (CausalSelfAttention.c_attn a))
    (Linear_map (CausalSelfAttention.c_proj a))
    (CausalSelfAttention.n_embd a) (CausalSelfAttention.n_head a).

Definition MLP_map (m : MLP.t P) : MLP.t Q :=
  MLP.mk (Linear_map (MLP.c_fc m)) (Linear_map (MLP.c_proj m)).

Definition Block_map (b : Block.t P) : Block.t Q :=
  Block.mk (LayerNorm_map (Block.ln_1 b))
           (CausalSelfAttention_map (Block.attn b))
           (LayerNorm_map (Block.ln_2 b))
           (MLP_map (Block.mlp b)).

Definition GPT_map (g : GPT.t P) : GPT.t Q :=
  let tr := GPT.transformer g in
  GPT.mk (GPT.config g)
    (GPT.mk_transformer (Embedding_map (GPT.wte tr)) (Embedding_map (GPT.wpe tr))
                        (Block_map <$> GPT.h tr) (LayerNorm_map (GPT.ln_f tr)))
    (Linear_map (GPT.lm_head g)).
End deref.

(** the values behind the references of [g] in the store [st] *)
Definition GPT_deref {Sub : Substrate} (st : gmap loc Tensor) (g : GPT.t loc)
  : GPT.t Tensor :=
  GPT_map (λ l, st !!! l) g.

(** ** Vocabulary of the statements *)

Section vocabulary.
Context {Sub : Substrate}.

(** [x] has shape [(B, T, C)]. *)
Definition shape3 (B T C : nat) (x : Act3) : Prop :=
  length x = B ∧
  Forall (λ row : list Vec, length row = T ∧ Forall (λ v : Vec, length v = C) row) x.

(** An integer tensor of shape [(B, T)], both positive, with entries in
    [[0, V)]. *)
Definition valid_ids (B T V : nat) (ids : list (list Z)) : Prop :=
  0 < B ∧ 0 < T ∧ length ids = B ∧
  Forall (λ row : list Z, length row = T ∧ Forall (λ i, 0 ≤ i < Z.of_nat V)%Z row) ids.

(** The parameters have the shapes their constructors give them. *)
Definition has_shape (sh : list nat) (t : Tensor) : Prop :=
  shape t = sh ∧ Tensor_wf t.

Definition Linear_wf (in_features out_features : nat) (l : Linear.t Tensor) : Prop :=
  has_shape [out_features; in_features] (Linear.weight l) ∧
  ∃ b, Linear.bias l = Some b ∧ has_shape [out_features] b.

Definition LayerNorm_wf (n : nat) (l : LayerNorm.t Tensor) : Prop :=
  has_shape [n] (LayerNorm.weight l) ∧ has_shape [n] (LayerNorm.bias l).

Definition Embedding_wf (num dim : nat) (e : Embedding.t Tensor) : Prop :=
  has_shape [num; dim] (Embedding.weight e).

Definition CausalSelfAttention_wf (config : GPTConfig)
    (a : CausalSelfAttention.t Tensor) : Prop :=
  0 < n_head config ∧ 0 < n_embd config ∧
  n_embd config `mod` n_head config = 0 ∧
  Linear_wf (n_embd config) (3 * n_embd config) (CausalSelfAttention.c_attn a) ∧
  Linear_wf (n_embd config) (n_embd config) (CausalSelfAttention.c_proj a) ∧
  CausalSelfAttention.n_embd a = n_embd config ∧
  CausalSelfAttention.n_head a = n_head config.

Definition MLP_wf (config : GPTConfig) (m : MLP.t Tensor) : Prop :=
  Linear_wf (n_embd config) (4 * n_embd config) (MLP.c_fc m) ∧
  Linear_wf (4 * n_embd config) (n_embd config) (MLP.c_proj m).

Definition Block_wf (config : GPTConfig) (b : Block.t Tensor) : Prop :=
  LayerNorm_wf (n_embd config) (Block.ln_1 b) ∧
  CausalSelfAttention_wf config (Block.attn b) ∧
  LayerNorm_wf (n_embd config) (Block.ln_2 b) ∧
  MLP_wf config (Block.mlp b).

Definition GPT_wf (m : GPT.t Tensor) : Prop :=
  let config := GPT.config m in
  let tr := GPT.transformer m in
  Embedding_wf (vocab_size config) (n_embd config) (GPT.wte tr) ∧
  Embedding_wf (block_size config) (n_embd config) (GPT.wpe tr) ∧
  length (GPT.h tr) = n_layer config ∧
  Forall (Block_wf config) (GPT.h tr) ∧
  LayerNorm_wf (n_embd config) (GPT.ln_f tr) ∧
  Linear_wf (n_embd config) (vocab_size config) (GPT.lm_head m).

(** *** What one position goes through *)

Definition MLP_vec (m : MLP.t Tensor) (v : Vec) : Vec :=
  Linear.forward_vec (MLP.c_proj m)
    (gelu_tanh <$> Linear.forward_vec (MLP.c_fc m) v).

Definition Block_vec (b : Block.t Tensor) (v : Vec) : Vec :=
  let v := vadd v (Linear.forward_vec (CausalSelfAttention.c_proj (Block.attn b))
                     (LayerNorm.forward_vec (Block.ln_1 b) v)) in
  vadd v (MLP_vec (Block.mlp b) (LayerNorm.forward_vec (Block.ln_2 b) v)).

Definition head_vec (m : GPT.t Tensor) (v : Vec) : Vec :=
  Linear.forward_vec (GPT.lm_head m)
    (LayerNorm.forward_vec (GPT.ln_f (GPT.transformer m)) v).

(** the logits of a position, from its two embedding vectors *)
Definition position_logits (m : GPT.t Tensor) (pos_embd tok_embd : Vec) : Vec :=
  head_vec m (foldl (λ v b, Block_vec b v) (vadd pos_embd tok_embd)
                    (GPT.h (GPT.transformer m))).

(** *** Section 4.1 of the specification: the attention layer as intended

    The per-head attention outputs, concatenated, go through the output
    projection. *)
Definition CausalSelfAttention_forward_spec (a : CausalSelfAttention.t Tensor)
    (x : Act3) : Act3 :=
  Linear.forward (CausalSelfAttention.c_proj a)
                 (CausalSelfAttention.attention a x).

(** *** Section 4.4 of the specification: the loss

    The mean, over the [B*T] positions, of the cross-entropy of the
    position's logits against its target. *)
Definition position_cross_entropy (x : Vec) (t : Z) : scalar :=
  default fzero (nll x (Z.to_nat t)).

Definition mean_cross_entropy (logits : Act3) (targets : list (list Z)) : scalar :=
  fdiv (vsum (zip_with position_cross_entropy (concat logits) (concat targets)))
       (of_nat (length logits * match logits with r :: _ => length r | [] => 0 end)).

(** *** Two models that differ only in the [c_attn] parameters *)



End vocabulary.

(** ** Vocabulary of the statements on construction and initialisation *)

(** the attribute and the bias a constructor leaves on a linear layer *)
Definition Linear_tagged {P} (tag : option nat) (l : Linear.t P) : Prop :=
  Linear.NANOGPT_SCALE_INIT l = tag ∧ is_Some (Linear.bias l).

Definition Block_tagged {P} (b : Block.t P) : Prop :=
  Linear_tagged None (CausalSelfAttention.c_attn (Block.attn b)) ∧
  Linear_tagged (Some 1) (CausalSelfAttention.c_proj (Block.attn b)) ∧
  Linear_tagged None (MLP.c_fc (Block.mlp b)) ∧
  Linear_tagged (Some 1) (MLP.c_proj (Block.mlp b)).

Section init_vocabulary.
Context {Sub : Substrate}.



End init_vocabulary.

(** a name that starts with [transformer.h.], as every name in the entries
    of the blocks does *)
Definition in_transformer (k : string) : Prop :=
  ∃ r, k = "transformer.h." +:+ r.

(** ** Examples *)

(** A small configuration: one block, two heads of width one. *)
Definition config_example : GPTConfig :=
  {| block_size := 4; vocab_size := 3; n_layer := 1; n_head := 2; n_embd := 2 |}.

(** the model object [GPT(config_example)] and what it allocates *)
Definition graph_example : GPT.t loc :=
  Eval vm_compute in
    match GPT_new config_example empty_layout with
    | Ok (g, _) => g
    | Err _ =>
        GPT.mk config_example
          (GPT.mk_transformer (Embedding.mk 0) (Embedding.mk 0) []
                              (LayerNorm.mk 0 0))
          (Linear.mk 0 None None)
    end.

Definition layout_example : layout :=
  match GPT_new config_example empty_layout with
  | Ok (_, lay) => lay
  | Err _ => empty_layout
  end.

(** the tensor of shape [sh] with every entry [c] *)
Definition full (sh : list nat) (c : R) : @Tensor Real :=
  mkTensor Real sh (replicate (numel sh) c).

(** the store in which every tensor of [layout_example] is filled with [c] *)
Definition store_example (c : R) : gmap loc (@Tensor Real) :=
  (λ sh, full sh c) <$> shapes layout_example.

Definition model_example (c : R) : GPT.t (@Tensor Real) :=
  GPT_deref (store_example c) graph_example.


(** a block of [config_example] with every parameter entry [c] *)
Definition block_example (c : R) : Block.t (@Tensor Real) :=
  Block.mk
    (LayerNorm.mk (full [2] c) (full [2] c))
    (CausalSelfAttention.mk
       (Linear.mk (full [6; 2] c) (Some (full [6] c)) None)
       (Linear.mk (full [2; 2] c) (Some (full [2] c)) (Some 1))
       2 2)
    (LayerNorm.mk (full [2] c) (full [2] c))
    (MLP.mk
       (Linear.mk (full [8; 2] c) (Some (full [8] c)) None)
       (Linear.mk (full [2; 8] c) (Some (full [2] c)) (Some 1))).

(** A foreign checkpoint for [graph_example]: one tensor per name, every
    entry [c], of the local shape, reversed for the names stored
    transposed. *)
Definition sd_hf_example (c : R) : list (string * @Tensor Real) :=
  (λ kl : string * loc,
     let sh := default [] (shapes layout_example !! kl.2) in
     (kl.1, full (if is_transposed kl.1 then rev sh else sh) c))
  <$> GPT_state_dict graph_example.

(** the same checkpoint with the position-embedding table (the second
    entry) one row too long *)
Definition sd_hf_bad_shape (c : R) : list (string * @Tensor Real) :=
  <[1 := ("transformer.wpe.weight", full [5; 2] c)]> (sd_hf_example c).

(** the same checkpoint with one parameter fewer *)
Definition sd_hf_one_fewer (c : R) : list (string * @Tensor Real) :=
  removelast (sd_hf_example c).

(** ** [DataLoaderLite]

    The loader after [__init__]: the batch dimensions, the token stream
    ([enc.encode] of the text read from the file, taken as given) and the
    read position. *)

Module DataLoaderLite.
Record t := mk {
  B : nat;
  T : nat;
  tokens : list Z;
  CurrentIdx : nat;
}.

(** [__init__(B, T)], its token stream being [tokens] *)
Definition init (B T : nat) (tokens : list Z) : t :=
  mk B T tokens 0.

(** [x.view(B, T)] of a one-dimensional tensor: its entries in [B] rows of
    [T]; an error unless there are [B * T] of them *)
Definition view {A} (B T : nat) (x : list A) : result (list (list A)) :=
  if decide (length x = B * T) then Ok (reshape (replicate B T) x)
  else Err RuntimeError.

(** the slices [l[i:j]] (for [i ≤ j]), [l[:-1]] and [l[1:]] *)
Definition slice {A} (i j : nat) (l : list A) : list A := take (j - i) (drop i l).
Definition all_but_last {A} (l : list A) : list A := take (length l - 1) l.
Definition from_second {A} (l : list A) : list A := drop 1 l.

Definition next_batch (self : t)
  : result (list (list Z) * list (list Z) * t) :=
  let B := B self in
  let T := T self in
  let buf := slice (CurrentIdx self) (CurrentIdx self + B * T + 1) (tokens self) in
  x ← view B T (all_but_last buf);
  y ← view B T (from_second buf);
  let self := mk B T (tokens self) (CurrentIdx self + B * T) in
  Ok (x, y, self).

End DataLoaderLite.

(** the window of [n] tokens that starts at position [i] of a stream *)
Definition window {A} (i n : nat) (l : list A) : list A := take n (drop i l).

(** the batch [(x, y)] read at position [c] of the token stream of a loader *)
Definition batch_at (self : DataLoaderLite.t) (c : nat)
  : list (list Z) * list (list Z) :=
  let B := DataLoaderLite.B self in
  let T := DataLoaderLite.T self in
  (reshape (replicate B T) (window c (B * T) (DataLoaderLite.tokens self)),
   reshape (replicate B T) (window (c + 1) (B * T) (DataLoaderLite.tokens self))).

(** the loader [self] with its read position moved to [c] *)
Definition at_position (self : DataLoaderLite.t) (c : nat) : DataLoaderLite.t :=
  DataLoaderLite.mk (DataLoaderLite.B self) (DataLoaderLite.T self)
                    (DataLoaderLite.tokens self) c.

(** a loader of batches of one sequence of three tokens *)
Definition loader_example : DataLoaderLite.t :=
  DataLoaderLite.init 1 3 [0; 1; 2; 1; 0; 2; 1; 0]%Z.

(** ** Shapes of the parameters of an object graph

    [R p sh] reads "the slot content [p] stands for a tensor of shape [sh]".
    The predicates say that the slots of a module stand for tensors of the
    shapes its constructor asks for. *)

Section shaped.
Context {P : Type} (R : P → list nat → Prop).

Definition Linear_shaped (in_features out_features : nat) (l : Linear.t P) : Prop :=
  R (Linear.weight l) [out_features; in_features] ∧
  ∃ b, Linear.bias l = Some b ∧ R b [out_features].

Definition LayerNorm_shaped (n : nat) (l : LayerNorm.t P) : Prop :=
  R (LayerNorm.weight l) [n] ∧ R (LayerNorm.bias l) [n].

Definition Embedding_shaped (num dim : nat) (e : Embedding.t P) : Prop :=
  R (Embedding.weight e) [num; dim].

Definition CausalSelfAttention_shaped (config : GPTConfig)
    (a : CausalSelfAttention.t P) : Prop :=
  Linear_shaped (n_embd config) (3 * n_embd config) (CausalSelfAttention.c_attn a) ∧
  Linear_shaped (n_embd config) (n_embd config) (CausalSelfAttention.c_proj a) ∧
  CausalSelfAttention.n_embd a = n_embd config ∧
  CausalSelfAttention.n_head a = n_head config.

Definition MLP_shaped (config : GPTConfig) (m : MLP.t P) : Prop :=
  Linear_shaped (n_embd config) (4 * n_embd config) (MLP.c_fc m) ∧
  Linear_shaped (4 * n_embd config) (n_embd config) (MLP.c_proj m).

Definition Block_shaped (config : GPTConfig) (b : Block.t P) : Prop :=
  LayerNorm_shaped (n_embd config) (Block.ln_1 b) ∧
  CausalSelfAttention_shaped config (Block.attn b) ∧
  LayerNorm_shaped (n_embd config) (Block.ln_2 b) ∧
  MLP_shaped config (Block.mlp b).

Definition GPT_shaped (g : GPT.t P) : Prop :=
  let config := GPT.config g in
  let tr := GPT.transformer g in
  Embedding_shaped (vocab_size config) (n_embd config) (GPT.wte tr) ∧
  Embedding_shaped (block_size config) (n_embd config) (GPT.wpe tr) ∧
  length (GPT.h tr) = n_layer config ∧
  Forall (Block_shaped config) (GPT.h tr) ∧
  LayerNorm_shaped (n_embd config) (GPT.ln_f tr) ∧
  Linear_shaped (n_embd config) (vocab_size config) (GPT.lm_head g).
End shaped.

(** the reference [l] was allocated with shape [sh] *)
Definition allocated (s : layout) (l : loc) (sh : list nat) : Prop :=
  shapes s !! l = Some sh ∧ l < next s.

(** nothing is recorded at or past the next free reference *)
Definition layout_ok (s : layout) : Prop :=
  ∀ l, next s ≤ l → shapes s !! l = None.

(** a configuration whose attention layers may be built *)
Definition heads_divide (config : GPTConfig) : Prop :=
  n_head config ≠ 0 ∧ n_embd config `mod` n_head config = 0.

(** what was allocated in [s] is allocated in [s'] *)
Definition extends (s s' : layout) : Prop :=
  ∀ l sh, allocated s l sh → allocated s' l sh.

(** * Properties

    ** The forward pass, position by position *)

Section forward_facts.
Context {Sub : Substrate}.

Lemma at_positions_compose {A B C} (f : A → B) (g : B → C) (x : list (list A)) :
  at_positions g (at_positions f x) = at_positions (g ∘ f) x.
Proof.
  unfold at_positions. rewrite <- list_fmap_compose.
  apply list_fmap_ext. intros _ row _. simpl. by rewrite <- list_fmap_compose.
Qed.

Lemma add3_at_positions (f : Vec → Vec) (x : Act3) :
  add3 x (at_positions f x) = at_positions (λ v, vadd v (f v)) x.
Proof.
  unfold add3, at_positions.
  rewrite zip_with_fmap_r, zip_with_diag.
  apply list_fmap_ext. intros _ row _.
  by rewrite zip_with_fmap_r, zip_with_diag.
Qed.

Lemma CausalSelfAttention_forward_eq (a : CausalSelfAttention.t Tensor) (x : Act3) :
  CausalSelfAttention.forward a x =
  at_positions (Linear.forward_vec (CausalSelfAttention.c_proj a)) x.
Proof. reflexivity. Qed.

Lemma MLP_forward_eq (m : MLP.t Tensor) (x : Act3) :
  MLP.forward m x = at_positions (MLP_vec m) x.
Proof.
  unfold MLP.forward, MLP.gelu, Linear.forward.
  by rewrite !at_positions_compose.
Qed.

Lemma Block_forward_eq (b : Block.t Tensor) (x : Act3) :
  Block.forward b x = at_positions (Block_vec b) x.
Proof.
  unfold Block.forward. cbv zeta.
  rewrite CausalSelfAttention_forward_eq, MLP_forward_eq.
  unfold LayerNorm.forward.
  rewrite at_positions_compose, add3_at_positions.
  remember (at_positions _ x) as x1 eqn:Hx1.
  rewrite at_positions_compose, add3_at_positions.
  subst x1. by rewrite at_positions_compose.
Qed.

Lemma at_positions_id {A} (x : list (list A)) : at_positions (λ v, v) x = x.
Proof.
  unfold at_positions. rewrite <- (list_fmap_id x) at 2.
  apply list_fmap_ext. intros _ row _. apply list_fmap_id.
Qed.

Lemma foldl_Block_forward (hs : list (Block.t Tensor)) (x : Act3) :
  foldl (λ x block, Block.forward block x) x hs =
  at_positions (λ v, foldl (λ v b, Block_vec b v) v hs) x.
Proof.
  revert x. induction hs as [|b hs IH]; intros x; simpl.
  - by rewrite at_positions_id.
  - by rewrite IH, Block_forward_eq, at_positions_compose.
Qed.

Lemma head_eq (m : GPT.t Tensor) (x : Act3) :
  GPT.head m x = at_positions (head_vec m) x.
Proof.
  unfold GPT.head, LayerNorm.forward, Linear.forward.
  by rewrite at_positions_compose.
Qed.

(** *** [mapM] in the exception monad *)

Lemma mapM_Ok {A B} (f : A → result B) (l : list A) (k : list B) :
  mapM f l = Ok k ↔ Forall2 (λ x y, f x = Ok y) l k.
Proof.
  split.
  - revert k. induction l as [|x l IH]; intros k; simpl.
    + intros [= <-]. constructor.
    + unfold mbind, result_bind. destruct (f x) as [y|] eqn:Hx; [|done].
      destruct (mapM f l) as [k'|]; [|done].
      intros [= <-]. constructor; auto.
  - induction 1 as [|x y l k Hx _ IH]; simpl; [done|].
    rewrite Hx. simpl. by rewrite IH.
Qed.


Lemma mapM_Ok_total {A B} (f : A → result B) (l : list A) :
  Forall (λ x, ∃ y, f x = Ok y) l → ∃ k, mapM f l = Ok k.
Proof.
  induction 1 as [|x l [y Hy] _ [k Hk]]; simpl.
  - by exists [].
  - exists (y :: k). rewrite Hy. simpl. by rewrite Hk.
Qed.

Lemma mapM_Ok_length {A B} (f : A → result B) (l : list A) (k : list B) :
  mapM f l = Ok k → length k = length l.
Proof. intros H%mapM_Ok. symmetry. by eapply Forall2_length. Qed.

Lemma mapM_Ok_take {A B} (f : A → result B) (l : list A) (k : list B) n :
  mapM f l = Ok k → mapM f (take n l) = Ok (take n k).
Proof. rewrite !mapM_Ok. apply Forall2_take. Qed.

Lemma fmap_zip_with_compose {A B C D} (g : C → D) (f : A → B → C) l k :
  g <$> zip_with f l k = zip_with (λ x y, g (f x y)) l k.
Proof.
  revert k. induction l as [|x l IH]; intros [|y k]; simpl; [done..|].
  by rewrite <- IH.
Qed.

(** *** The forward pass, position by position *)

Lemma GPT_forward_eq (m : GPT.t Tensor) (idx : list (list Z))
    (targets : option (list (list Z))) :
  GPT.forward m idx targets =
  if decide ((size2 idx).2 < block_size (GPT.config m)) then
    pos_embd ← mapM (Embedding.forward (GPT.wpe (GPT.transformer m)))
                    (Z.of_nat <$> seq 0 (size2 idx).2);
    tok_embd ← mapM (mapM (Embedding.forward (GPT.wte (GPT.transformer m)))) idx;
    let logits := (λ tok : list Vec, zip_with (position_logits m) pos_embd tok)
                    <$> tok_embd in
    loss ← match targets with
           | None => Ok None
           | Some targets => Some <$> cross_entropy (concat logits) (concat targets)
           end;
    Ok (logits, loss)
  else Err (AssertionError
              (GPT.capacity_message (size2 idx).2 (block_size (GPT.config m)))).
Proof.
  unfold GPT.forward. simpl. case_decide; [|done].
  destruct (mapM _ (Z.of_nat <$> _)) as [pos_embd|]; [|done]. simpl.
  destruct (mapM (mapM _) idx) as [tok_embd|]; [|done]. simpl.
  rewrite foldl_Block_forward, head_eq, at_positions_compose.
  assert (at_positions
            (head_vec m ∘ (λ v, foldl (λ v b, Block_vec b v) v
                                  (GPT.h (GPT.transformer m))))
            ((λ tok : list Vec, zip_with vadd pos_embd tok) <$> tok_embd) =
          (λ tok : list Vec, zip_with (position_logits m) pos_embd tok) <$> tok_embd)
    as ->; [|done].
  unfold at_positions. rewrite <- list_fmap_compose.
  apply list_fmap_ext. intros _ tok _. simpl.
  by rewrite fmap_zip_with_compose.
Qed.
End forward_facts.

(** ** Exceptions of the forward pass *)

Section error_facts.
Context {Sub : Substrate}.




End error_facts.


(** ** Shapes *)

Section shape_facts.
Context {Sub : Substrate}.

Lemma rows_length (t : Tensor) r c : shape t = [r; c] → length (rows t) = r.
Proof.
  intros Hs. unfold rows. rewrite Hs.
  by rewrite length_reshape, length_replicate.
Qed.

Lemma has_shape_1_length (t : Tensor) n : has_shape [n] t → length (data t) = n.
Proof. intros [Hs Hwf]. unfold Tensor_wf in Hwf. rewrite Hwf, Hs. simpl. lia. Qed.

Lemma Linear_forward_vec_length i o (l : Linear.t Tensor) (v : Vec) :
  Linear_wf i o l → length (Linear.forward_vec l v) = o.
Proof.
  intros [[Hw _] (b & Hb & Hbs)]. unfold Linear.forward_vec. rewrite Hb.
  unfold vadd. rewrite length_zip_with, length_fmap.
  rewrite (rows_length _ o i) by done.
  rewrite (has_shape_1_length b o) by done. lia.
Qed.

Lemma LayerNorm_forward_vec_length n (l : LayerNorm.t Tensor) (v : Vec) :
  LayerNorm_wf n l → length v = n → length (LayerNorm.forward_vec l v) = n.
Proof.
  intros [Hw Hb] Hv. unfold LayerNorm.forward_vec, vadd.
  rewrite !length_zip_with, !length_fmap.
  rewrite (has_shape_1_length _ n Hw), (has_shape_1_length _ n Hb). lia.
Qed.

Lemma MLP_vec_length config (m : MLP.t Tensor) (v : Vec) :
  MLP_wf config m → length (MLP_vec m v) = n_embd config.
Proof. intros [_ Hp]. by eapply Linear_forward_vec_length. Qed.

Lemma Block_vec_length config (b : Block.t Tensor) (v : Vec) :
  Block_wf config b → length v = n_embd config →
  length (Block_vec b v) = n_embd config.
Proof.
  intros (_ & (_ & _ & _ & _ & Hproj & _) & _ & Hmlp) Hv. unfold Block_vec, vadd.
  rewrite !length_zip_with.
  rewrite (MLP_vec_length config) by done.
  rewrite (Linear_forward_vec_length _ (n_embd config)) by done. lia.
Qed.

Lemma shape3_at_positions B T C C' (f : Vec → Vec) (x : Act3) :
  (∀ v, length v = C → length (f v) = C') →
  shape3 B T C x → shape3 B T C' (at_positions f x).
Proof.
  intros Hf [HB Hrows]. split.
  - unfold at_positions. by rewrite length_fmap.
  - unfold at_positions. rewrite Forall_fmap.
    eapply Forall_impl; [exact Hrows|].
    intros row [HT Hvs]. simpl. split.
    + by rewrite length_fmap.
    + rewrite Forall_fmap. eapply Forall_impl; [exact Hvs|]. simpl. auto.
Qed.
End shape_facts.

(** C9: [Block.forward] is the pre-norm residual composition
    [x' = x + attn(ln_1(x))], [x'' = x' + mlp(ln_2(x'))]: each sub-layer
    reads the normalised residual stream and its output is added to the
    un-normalised one.  On a block whose parameters have the shapes of the
    configuration, an input of shape [(B, T, n_embd)] gives an output of
    that shape. *)
Theorem C9_block_pre_norm_residual {Sub : Substrate} (config : GPTConfig)
    (b : Block.t Tensor) (x : Act3) (B T : nat) :
  Block_wf config b →
  shape3 B T (n_embd config) x →
  ∃ x' x'',
    x' = add3 x (CausalSelfAttention.forward (Block.attn b)
                   (LayerNorm.forward (Block.ln_1 b) x)) ∧
    x'' = add3 x' (MLP.forward (Block.mlp b)
                     (LayerNorm.forward (Block.ln_2 b) x')) ∧
    Block.forward b x = x'' ∧
    shape3 B T (n_embd config) x' ∧
    shape3 B T (n_embd config) x''.
Proof.
  intros Hwf Hx. eexists _, _. split; [reflexivity|]. split; [reflexivity|].
  split; [reflexivity|].
  assert (shape3 B T (n_embd config)
            (add3 x (CausalSelfAttention.forward (Block.attn b)
                       (LayerNorm.forward (Block.ln_1 b) x)))) as Hx'.
  { rewrite CausalSelfAttention_forward_eq. unfold LayerNorm.forward.
    rewrite at_positions_compose, add3_at_positions.
    eapply shape3_at_positions; [|exact Hx].
    intros v Hv. unfold vadd. rewrite length_zip_with. simpl.
    destruct Hwf as (_ & (_ & _ & _ & _ & Hproj & _) & _).
    rewrite (Linear_forward_vec_length _ (n_embd config)) by done. lia. }
  split; [exact Hx'|].
  rewrite MLP_forward_eq. unfold LayerNorm.forward.
  rewrite at_positions_compose, add3_at_positions.
  eapply shape3_at_positions; [|exact Hx'].
  intros v Hv. unfold vadd. rewrite length_zip_with. simpl.
  destruct Hwf as (_ & _ & _ & Hmlp).
  rewrite (MLP_vec_length config) by done. lia.
Qed.

(** ** The result of the forward pass *)

Section result_facts.
Context {Sub : Substrate}.

Lemma Embedding_forward_Ok num dim (e : Embedding.t Tensor) (i : Z) :
  Embedding_wf num dim e → (0 ≤ i < Z.of_nat num)%Z →
  ∃ v, Embedding.forward e i = Ok v.
Proof.
  intros [Hs _] Hi. unfold Embedding.forward. rewrite decide_True by lia.
  destruct (rows (Embedding.weight e) !! Z.to_nat i) as [v|] eqn:Hv; [by eexists|].
  apply lookup_ge_None in Hv. rewrite (rows_length _ num dim) in Hv by done. lia.
Qed.

Lemma concat_length_uniform {A} (l : list (list A)) T :
  Forall (λ r, length r = T) l → length (concat l) = length l * T.
Proof.
  induction 1 as [|r l Hr _ IH]; simpl; [done|].
  rewrite length_app, IH, Hr. lia.
Qed.

Lemma log_softmax_length (x : Vec) : length (log_softmax x) = length x.
Proof. unfold log_softmax. by rewrite length_fmap. Qed.

Lemma nll_term_valid (x : Vec) (t : Z) :
  (0 ≤ t < Z.of_nat (length x))%Z →
  nll_term (x, t) = Ok (Some (position_cross_entropy x t)).
Proof.
  intros Ht. unfold nll_term, position_cross_entropy.
  rewrite decide_False by lia. rewrite decide_True by lia.
  destruct (nll x (Z.to_nat t)) as [l|] eqn:Hn; [done|].
  unfold nll in Hn. apply fmap_None, lookup_ge_None in Hn.
  rewrite log_softmax_length in Hn. lia.
Qed.

Local Arguments nll_term : simpl never.

Lemma mapM_nll_term_valid (input : list Vec) (target : list Z) V :
  Forall (λ x : Vec, length x = V) input →
  Forall (λ t, 0 ≤ t < Z.of_nat V)%Z target →
  mapM nll_term (zip input target) =
  Ok (Some <$> zip_with position_cross_entropy input target).
Proof.
  intros Hin. revert target.
  induction Hin as [|x input Hx _ IH]; intros target Htg; [done|].
  destruct Htg as [|t target Ht Htg]; [done|].
  simpl. rewrite nll_term_valid by (rewrite Hx; lia). simpl.
  by rewrite IH.
Qed.

Lemma omap_Some_fmap {A} (l : list A) : omap (λ o, o) (Some <$> l) = l.
Proof. induction l as [|a l IH]; [done|]. simpl. f_equal. exact IH. Qed.

Lemma cross_entropy_valid (input : list Vec) (target : list Z) V :
  length input = length target →
  Forall (λ x : Vec, length x = V) input →
  Forall (λ t, 0 ≤ t < Z.of_nat V)%Z target →
  cross_entropy input target =
  Ok (fdiv (vsum (zip_with position_cross_entropy input target))
           (of_nat (length input))).
Proof.
  intros Hlen Hin Htg. unfold cross_entropy. rewrite decide_True by done.
  rewrite (mapM_nll_term_valid _ _ V) by done. simpl.
  rewrite omap_Some_fmap, length_zip_with. do 3 f_equal. lia.
Qed.
End result_facts.
Lemma bind_Ok {A B} (f : A → result B) (a : A) : (Ok a ≫= f) = f a.
Proof. reflexivity. Qed.

Lemma fmap_Ok {A B} (f : A → B) (a : A) : f <$> Ok a = Ok (f a).
Proof. reflexivity. Qed.

Section forward_valid.
Context {Sub : Substrate}.

(** the embedding lookups of a well-formed model succeed on valid ids *)
Lemma wpe_lookups_Ok (m : GPT.t Tensor) T :
  GPT_wf m → T < block_size (GPT.config m) →
  ∃ pos_embd,
    mapM (Embedding.forward (GPT.wpe (GPT.transformer m)))
         (Z.of_nat <$> seq 0 T) = Ok pos_embd ∧
    length pos_embd = T.
Proof.
  intros (_ & Hwpe & _) HT.
  destruct (mapM_Ok_total (Embedding.forward (GPT.wpe (GPT.transformer m)))
              (Z.of_nat <$> seq 0 T)) as [pos_embd Hpos].
  { rewrite Forall_fmap. apply Forall_forall. intros i Hi%elem_of_seq. simpl.
    eapply Embedding_forward_Ok; [exact Hwpe|]. lia. }
  exists pos_embd. split; [done|].
  apply mapM_Ok_length in Hpos. by rewrite Hpos, length_fmap, length_seq.
Qed.

Lemma wte_lookups_Ok (m : GPT.t Tensor) B T idx :
  GPT_wf m → valid_ids B T (vocab_size (GPT.config m)) idx →
  ∃ tok_embd,
    mapM (mapM (Embedding.forward (GPT.wte (GPT.transformer m)))) idx = Ok tok_embd ∧
    length tok_embd = B ∧
    Forall (λ row : list Vec, length row = T) tok_embd.
Proof.
  intros (Hwte & _) (_ & _ & HB & Hrows).
  destruct (mapM_Ok_total
              (mapM (Embedding.forward (GPT.wte (GPT.transformer m)))) idx)
    as [tok_embd Htok].
  { eapply Forall_impl; [exact Hrows|]. intros row [_ Hids]. simpl.
    apply mapM_Ok_total. eapply Forall_impl; [exact Hids|].
    intros i Hi. simpl. by eapply Embedding_forward_Ok. }
  exists tok_embd. split; [done|]. split.
  - apply mapM_Ok_length in Htok. lia.
  - apply mapM_Ok in Htok. clear HB.
    induction Htok as [|row erow idx tok_embd Hrow _ IH]; [done|].
    apply Forall_cons in Hrows as [[HT _] Hrows].
    constructor; [|by apply IH].
    apply mapM_Ok_length in Hrow. congruence.
Qed.

Lemma position_logits_length (m : GPT.t Tensor) (p e : Vec) :
  GPT_wf m → length (position_logits m p e) = vocab_size (GPT.config m).
Proof.
  intros (_ & _ & _ & _ & _ & Hhead). unfold position_logits, head_vec.
  by eapply Linear_forward_vec_length.
Qed.

Lemma logits_shape3 (m : GPT.t Tensor) (pos_embd : list Vec)
    (tok_embd : list (list Vec)) B T :
  GPT_wf m → length pos_embd = T → length tok_embd = B →
  Forall (λ row : list Vec, length row = T) tok_embd →
  shape3 B T (vocab_size (GPT.config m))
    ((λ tok : list Vec, zip_with (position_logits m) pos_embd tok) <$> tok_embd).
Proof.
  intros Hwf Hpos HB Hrows. split; [by rewrite length_fmap|].
  rewrite Forall_fmap. eapply Forall_impl; [exact Hrows|].
  intros row Hrow. simpl. split.
  - rewrite length_zip_with. simpl in Hrow. rewrite Hpos, Hrow. apply Nat.min_id.
  - apply Forall_forall. intros v (p & e & -> & _)%elem_of_zip_with.
    by apply position_logits_length.
Qed.

Lemma shape3_concat B T C (x : Act3) :
  shape3 B T C x →
  length (concat x) = B * T ∧ Forall (λ v : Vec, length v = C) (concat x).
Proof.
  intros [HB Hrows]. split.
  - rewrite (concat_length_uniform x T), HB; [done|].
    eapply Forall_impl; [exact Hrows|]. by intros row [? _].
  - apply Forall_concat. eapply Forall_impl; [exact Hrows|]. by intros row [_ ?].
Qed.

Lemma valid_ids_size2 B T V (ids : list (list Z)) :
  valid_ids B T V ids → size2 ids = (B, T).
Proof.
  intros (HB0 & _ & HB & Hrows). unfold size2.
  destruct Hrows as [|row ids [HT _] _]; simpl in *; [lia|]. congruence.
Qed.

Lemma valid_ids_concat B T V (ids : list (list Z)) :
  valid_ids B T V ids →
  length (concat ids) = B * T ∧ Forall (λ t, 0 ≤ t < Z.of_nat V)%Z (concat ids).
Proof.
  intros (_ & _ & HB & Hrows). split.
  - rewrite (concat_length_uniform ids T), HB; [done|].
    eapply Forall_impl; [exact Hrows|]. by intros row [? _].
  - apply Forall_concat. eapply Forall_impl; [exact Hrows|]. by intros row [_ ?].
Qed.

Lemma shape3_first_row B T C (x : Act3) :
  shape3 B T C x →
  length x * match x with r :: _ => length r | [] => 0 end = B * T.
Proof.
  intros [HB Hrows]. destruct Hrows as [|r x [Hr _] _]; simpl in *; [lia|].
  rewrite Hr. lia.
Qed.
End forward_valid.

(** C8: on a model whose parameters have the shapes of its configuration
    and an input of shape [(B, T)], [T < block_size], with token ids in
    [[0, vocab_size)], [GPT.forward] returns logits of shape
    [(B, T, vocab_size)]; without targets the loss is [None]; with targets
    (of shape [(B, T)], below [vocab_size]) the logits are the same and the
    loss is the mean over the [B*T] positions of the cross-entropy of the
    position's logits against its target. *)
Theorem C8_forward_result {Sub : Substrate} (m : GPT.t Tensor)
    (idx : list (list Z)) (B T : nat) :
  GPT_wf m →
  T < block_size (GPT.config m) →
  valid_ids B T (vocab_size (GPT.config m)) idx →
  ∃ logits,
    shape3 B T (vocab_size (GPT.config m)) logits ∧
    GPT.forward m idx None = Ok (logits, None) ∧
    ∀ targets,
      valid_ids B T (vocab_size (GPT.config m)) targets →
      GPT.forward m idx (Some targets) =
      Ok (logits, Some (mean_cross_entropy logits targets)).
Proof.
  intros Hwf HT Hidx. pose proof (valid_ids_size2 _ _ _ _ Hidx) as Hsize.
  destruct (wpe_lookups_Ok m T Hwf HT) as (pos_embd & Hpos & Hlpos).
  destruct (wte_lookups_Ok m B T idx Hwf Hidx) as (tok_embd & Htok & HB & Hrows).
  pose proof (logits_shape3 m pos_embd tok_embd B T Hwf Hlpos HB Hrows) as Hshape.
  eexists. split; [exact Hshape|].
  split.
  - rewrite GPT_forward_eq, Hsize. cbn [snd].
    rewrite decide_True by done. by rewrite Hpos, bind_Ok, Htok, bind_Ok.
  - intros targets Htg.
    rewrite GPT_forward_eq, Hsize. cbn [snd].
    rewrite decide_True by done. rewrite Hpos, bind_Ok, Htok, bind_Ok.
    cbv zeta.
    apply shape3_concat in Hshape as Hcat. destruct Hcat as [Hlen Hvs].
    apply valid_ids_concat in Htg as [Hlen' Hts].
    rewrite (cross_entropy_valid _ _ (vocab_size (GPT.config m)))
      by (done || lia).
    rewrite fmap_Ok, bind_Ok. unfold mean_cross_entropy.
    by rewrite (shape3_first_row B T _ _ Hshape), Hlen.
Qed.

(** ** What the logits depend on *)

Section hyper_facts.
Context {Sub : Substrate}.

Lemma mapM_mapM_take {A B} (f : A → result B) (l : list (list A))
    (k : list (list B)) n :
  mapM (mapM f) l = Ok k →
  mapM (mapM f) (take n <$> l) = Ok (take n <$> k).
Proof.
  rewrite !mapM_Ok. intros H. apply Forall2_fmap.
  eapply Forall2_impl; [exact H|]. intros row erow. simpl. apply mapM_Ok_take.
Qed.


End hyper_facts.

(** C3: on a model whose parameters have the shapes of its configuration,
    two inputs of shape [(B, T)], [T < block_size], that agree on the
    positions [0..t] of every sequence give logits that agree on the
    positions [0..t] of every sequence. *)
Theorem C3_causality {Sub : Substrate} (m : GPT.t Tensor)
    (idx idx' : list (list Z)) (B T t : nat) :
  GPT_wf m →
  T < block_size (GPT.config m) →
  valid_ids B T (vocab_size (GPT.config m)) idx →
  valid_ids B T (vocab_size (GPT.config m)) idx' →
  take (S t) <$> idx = take (S t) <$> idx' →
  ∃ logits logits',
    GPT.forward m idx None = Ok (logits, None) ∧
    GPT.forward m idx' None = Ok (logits', None) ∧
    take (S t) <$> logits = take (S t) <$> logits'.
Proof.
  intros Hwf HT Hidx Hidx' Hpre.
  pose proof (valid_ids_size2 _ _ _ _ Hidx) as Hsize.
  pose proof (valid_ids_size2 _ _ _ _ Hidx') as Hsize'.
  destruct (wpe_lookups_Ok m T Hwf HT) as (pos_embd & Hpos & _).
  destruct (wte_lookups_Ok m B T idx Hwf Hidx) as (tok_embd & Htok & _).
  destruct (wte_lookups_Ok m B T idx' Hwf Hidx') as (tok_embd' & Htok' & _).
  eexists _, _. split; [|split].
  - rewrite GPT_forward_eq, Hsize. cbn [snd].
    rewrite decide_True by done. by rewrite Hpos, bind_Ok, Htok, bind_Ok.
  - rewrite GPT_forward_eq, Hsize'. cbn [snd].
    rewrite decide_True by done. by rewrite Hpos, bind_Ok, Htok', bind_Ok.
  - apply (mapM_mapM_take _ _ _ (S t)) in Htok, Htok'.
    rewrite Hpre in Htok. rewrite Htok in Htok'. injection Htok' as Hemb.
    rewrite <- !list_fmap_compose.
    transitivity ((λ tok : list Vec,
                     zip_with (position_logits m) (take (S t) pos_embd) tok)
                  <$> (take (S t) <$> tok_embd)).
    + rewrite <- list_fmap_compose. apply list_fmap_ext. intros _ tok _. simpl.
      by rewrite zip_with_take.
    + rewrite Hemb, <- list_fmap_compose. apply list_fmap_ext. intros _ tok _.
      simpl. by rewrite zip_with_take.
Qed.

(** ** The attention layer against its specification *)

Lemma attn_example_forward :
  CausalSelfAttention.forward attn_example x_example = [[[1%R]]].
Proof.
  cbn. repeat f_equal. lra.
Qed.

Lemma attn_example_attention :
  CausalSelfAttention.attention attn_example x_example = [[[0%R]]].
Proof.
  cbv [CausalSelfAttention.attention attn_example x_example size3 length
       Linear.forward Linear.forward_vec at_positions fmap list_fmap rows shape
       data reshape replicate take drop dot vsum zip_with foldr vadd
       Linear.weight Linear.bias CausalSelfAttention.c_attn
       CausalSelfAttention.n_embd CausalSelfAttention.n_head split3 to_heads
       from_heads seq Nat.div Nat.divmod fst snd Nat.mul Nat.add
       scaled_dot_product_attention scaled_dot_product_attention_head zip imap
       sdpa_row weighted_sum softmax vmax omap list_omap lookup list_lookup
       concat app compose].
  do 3 f_equal.
  match goal with |- fadd (fmul ?p _) _ = _ => generalize p end.
  intros p. cbn. ring.
Qed.

(** C1 (the code departs from the claim): on the one-dimensional example,
    the layer as specified projects the attention result and returns 0;
    [CausalSelfAttention.forward] projects its input and returns 1. *)
Theorem C1_forward_projects_input_not_attention :
  CausalSelfAttention_forward_spec attn_example x_example = [[[0%R]]] ∧
  CausalSelfAttention.forward attn_example x_example = [[[1%R]]] ∧
  CausalSelfAttention.forward attn_example x_example ≠
  CausalSelfAttention_forward_spec attn_example x_example.
Proof.
  assert (CausalSelfAttention_forward_spec attn_example x_example = [[[0%R]]])
    as Hspec.
  { unfold CausalSelfAttention_forward_spec. rewrite attn_example_attention.
    cbn. repeat f_equal. lra. }
  split; [exact Hspec|]. split; [exact attn_example_forward|].
  rewrite Hspec, attn_example_forward. intros [= H]. lra.
Qed.
(** *** Construction *)

Lemma init_bind_Ok {A B} (m : Init A) (f : A → Init B) s b s'' :
  init_bind m f s = Ok (b, s'') →
  ∃ a s', m s = Ok (a, s') ∧ f a s' = Ok (b, s'').
Proof.
  unfold init_bind. destruct (m s) as [[a s']|]; [|done]. eauto.
Qed.

Ltac init_inv H :=
  repeat match type of H with
  | init_bind _ _ _ = Ok _ =>
      let a := fresh "a" in let s := fresh "s" in let Ha := fresh "Ha" in
      apply init_bind_Ok in H; destruct H as (a & s & Ha & H)
  | init_ret _ _ = Ok _ => unfold init_ret in H; injection H as <- <-
  | init_ret _ _ = Ok _ => unfold init_ret in H; injection H as <- ?
  end.

Lemma Linear_new_tagged i o s l s' :
  Linear_new i o s = Ok (l, s') → Linear_tagged None l.
Proof.
  unfold Linear_new. intros H. init_inv H.
  unfold new_parameter in *. simplify_eq. split; [done|]. by eexists.
Qed.

Lemma set_NANOGPT_SCALE_INIT_tagged {P} (l : Linear.t P) tag v :
  Linear_tagged tag l → Linear_tagged (Some v) (set_NANOGPT_SCALE_INIT l v).
Proof. intros [_ Hb]. by split. Qed.

Lemma CausalSelfAttention_new_tagged config s a s' :
  CausalSelfAttention_new config s = Ok (a, s') →
  Linear_tagged None (CausalSelfAttention.c_attn a) ∧
  Linear_tagged (Some 1) (CausalSelfAttention.c_proj a).
Proof.
  unfold CausalSelfAttention_new. repeat case_decide; try done.
  intros Hnew. init_inv Hnew. simpl. split.
  - by eapply Linear_new_tagged.
  - eapply set_NANOGPT_SCALE_INIT_tagged, Linear_new_tagged. eassumption.
Qed.

Lemma MLP_new_tagged config s m s' :
  MLP_new config s = Ok (m, s') →
  Linear_tagged None (MLP.c_fc m) ∧ Linear_tagged (Some 1) (MLP.c_proj m).
Proof.
  unfold MLP_new. intros H. init_inv H. simpl. split.
  - by eapply Linear_new_tagged.
  - eapply set_NANOGPT_SCALE_INIT_tagged, Linear_new_tagged. eassumption.
Qed.

Lemma Block_new_tagged config s b s' :
  Block_new config s = Ok (b, s') → Block_tagged b.
Proof.
  unfold Block_new. intros H. init_inv H. unfold Block_tagged. simpl.
  match goal with H : CausalSelfAttention_new _ _ = _ |- _ =>
    apply CausalSelfAttention_new_tagged in H as [? ?] end.
  match goal with H : MLP_new _ _ = _ |- _ =>
    apply MLP_new_tagged in H as [? ?] end.
  done.
Qed.

Lemma init_repeat_Forall {A} (P : A → Prop) (m : Init A) n s l s' :
  (∀ s a s', m s = Ok (a, s') → P a) →
  init_repeat n m s = Ok (l, s') → Forall P l.
Proof.
  intros Hm. revert s l. induction n as [|n IH]; intros s l H; simpl in H.
  - init_inv H. constructor.
  - init_inv H. constructor; eauto.
Qed.

Lemma init_repeat_length {A} (m : Init A) n s l s' :
  init_repeat n m s = Ok (l, s') → length l = n.
Proof.
  revert s l. induction n as [|n IH]; intros s l H; simpl in H.
  - by init_inv H.
  - init_inv H. simpl. f_equal. eauto.
Qed.

(** what [GPT_new] returns *)
Lemma GPT_new_Ok config s g s' :
  GPT_new config s = Ok (g, s') →
  GPT.config g = config ∧
  Embedding.weight (GPT.wte (GPT.transformer g)) = Linear.weight (GPT.lm_head g) ∧
  length (GPT.h (GPT.transformer g)) = n_layer config ∧
  Forall Block_tagged (GPT.h (GPT.transformer g)) ∧
  Linear_tagged None (GPT.lm_head g).
Proof.
  unfold GPT_new. intros H. init_inv H. simpl.
  split; [done|]. split; [done|]. split; [by eapply init_repeat_length|]. split.
  - eapply init_repeat_Forall; [|eassumption]. apply Block_new_tagged.
  - by eapply Linear_new_tagged.
Qed.

Ltac split_ors :=
  repeat match goal with
  | H : _ ∨ _ |- _ => destruct H as [H|H]
  | H : ∃ _, _ |- _ => destruct H as (? & ? & ?)
  end.


Lemma elem_of_Block_modules_Embedding {P} (b : Block.t P) (e : Embedding.t P) :
  IsEmbedding e ∉ Block_modules b.
Proof.
  unfold Block_modules, CausalSelfAttention_modules, MLP_modules.
  rewrite !elem_of_app, !elem_of_cons, !elem_of_nil.
  intros H. split_ors; done.
Qed.

Lemma elem_of_flat_map {A B} (f : A → list B) (l : list A) (y : B) :
  y ∈ flat_map f l ↔ ∃ x, x ∈ l ∧ y ∈ f x.
Proof.
  rewrite list_elem_of_In, in_flat_map. split.
  - intros (x & Hx & Hy). exists x. by rewrite !list_elem_of_In.
  - intros (x & Hx & Hy). exists x. by rewrite <- !list_elem_of_In.
Qed.


Lemma elem_of_GPT_modules_Embedding {P} (g : GPT.t P) (e : Embedding.t P) :
  IsEmbedding e ∈ GPT_modules g ↔
  e = GPT.wte (GPT.transformer g) ∨ e = GPT.wpe (GPT.transformer g).
Proof.
  unfold GPT_modules. cbv zeta.
  rewrite !elem_of_app, !elem_of_cons, !elem_of_nil, elem_of_flat_map.
  split.
  - intros H. split_ors; try done.
    + left. by injection H.
    + right. by injection H.
    + exfalso. by eapply elem_of_Block_modules_Embedding.
  - intros [->| ->]; [left; by left|left; right; by left].
Qed.

Section init_facts.
Context {Sub : Substrate}.


Lemma GPT_init_Ok config g lay calls :
  GPT_init config = Ok (g, lay, calls) →
  GPT_new config empty_layout = Ok (g, lay) ∧
  calls = GPT_apply_init_weights g.
Proof.
  unfold GPT_init. destruct (GPT_new _ _) as [[g' lay']|]; [|done].
  by intros [= -> -> <-].
Qed.
End init_facts.

(** *** Names in [state_dict()] *)

Lemma getitem_app_skip {V} (d1 d2 : list (string * V)) k :
  Forall (λ kv, String.eqb kv.1 k = false) d1 →
  getitem (d1 ++ d2) k = getitem d2 k.
Proof.
  induction 1 as [|[k' v] d1 Hk _ IH]; [done|]. simpl in *. by rewrite Hk.
Qed.

Lemma string_append_assoc (a b c : string) : (a +:+ b) +:+ c = a +:+ (b +:+ c).
Proof.
  induction a as [|x a IH]; [done|].
  change (String x ((a +:+ b) +:+ c) = String x (a +:+ b +:+ c)).
  exact (f_equal (String x) IH).
Qed.

Lemma in_transformer_append k s : in_transformer k → in_transformer (k +:+ s).
Proof.
  intros [r ->]. exists (r +:+ s). by rewrite string_append_assoc.
Qed.

Lemma in_transformer_not_lm_head k :
  in_transformer k → String.eqb k "lm_head.weight" = false.
Proof. by intros [r ->]. Qed.

Lemma Linear_state_dict_in_transformer {P} prefix (l : Linear.t P) :
  in_transformer prefix →
  Forall (λ kv, in_transformer kv.1) (Linear_state_dict prefix l).
Proof.
  intros Hp. unfold Linear_state_dict.
  destruct (Linear.bias l); repeat constructor; by apply in_transformer_append.
Qed.

Lemma Block_state_dict_in_transformer {P} prefix (b : Block.t P) :
  in_transformer prefix →
  Forall (λ kv, in_transformer kv.1) (Block_state_dict prefix b).
Proof.
  intros Hp. unfold Block_state_dict, LayerNorm_state_dict,
    CausalSelfAttention_state_dict, MLP_state_dict.
  rewrite !Forall_app. repeat split;
    try (apply Linear_state_dict_in_transformer);
    repeat constructor; simpl; by repeat apply in_transformer_append.
Qed.

Lemma GPT_state_dict_tied {P} (g : GPT.t P) :
  getitem (GPT_state_dict g) "transformer.wte.weight" =
    Ok (Embedding.weight (GPT.wte (GPT.transformer g))) ∧
  getitem (GPT_state_dict g) "lm_head.weight" = Ok (Linear.weight (GPT.lm_head g)).
Proof.
  split; [done|]. unfold GPT_state_dict. cbv zeta.
  change (Embedding_state_dict ?p ?e ++ Embedding_state_dict ?q ?e' ++ ?rest)
    with ((p +:+ "weight", Embedding.weight e) ::
          (q +:+ "weight", Embedding.weight e') :: rest).
  cbn [getitem String.append String.eqb Ascii.eqb Bool.eqb].
  rewrite getitem_app_skip.
  - done.
  - apply Forall_concat. apply Forall_forall. intros d Hd.
    apply elem_of_lookup_imap in Hd as (i & b & -> & _).
    eapply Forall_impl; [apply Block_state_dict_in_transformer|].
    + apply in_transformer_append. by eexists.
    + intros kv. apply in_transformer_not_lm_head.
Qed.
(** C4: in the model [GPT(config)] builds, the [weight] slot of the token
    embedding and the [weight] slot of [lm_head] hold one reference, listed
    in [state_dict()] under both names; so in every store the two roles read
    the same tensor, and after an in-place update of that tensor both read
    the updated value. *)
Theorem C4_weight_tying {Sub : Substrate} (config : GPTConfig)
    (g : GPT.t loc) (lay : layout) (calls : list init_call) :
  GPT_init config = Ok (g, lay, calls) →
  ∃ l : loc,
    Embedding.weight (GPT.wte (GPT.transformer g)) = l ∧
    Linear.weight (GPT.lm_head g) = l ∧
    getitem (GPT_state_dict g) "transformer.wte.weight" = Ok l ∧
    getitem (GPT_state_dict g) "lm_head.weight" = Ok l ∧
    ∀ (st : gmap loc Tensor) (t : Tensor),
      Embedding.weight (GPT.wte (GPT.transformer (GPT_deref st g))) =
        Linear.weight (GPT.lm_head (GPT_deref st g)) ∧
      Embedding.weight (GPT.wte (GPT.transformer (GPT_deref (<[l := t]> st) g))) = t ∧
      Linear.weight (GPT.lm_head (GPT_deref (<[l := t]> st) g)) = t.
Proof.
  intros (Hnew & _)%GPT_init_Ok.
  apply GPT_new_Ok in Hnew as (_ & Htied & _).
  destruct (GPT_state_dict_tied g) as [Hwte Hhead].
  exists (Linear.weight (GPT.lm_head g)).
  split; [done|]. split; [done|]. split; [by rewrite Hwte, Htied|].
  split; [done|]. intros st t. simpl. rewrite Htied.
  split; [done|]. by rewrite lookup_total_insert_eq.
Qed.

(** *** The copy loop *)

Section import_facts.
Context {Sub : Substrate}.


(** a failing step leaves the store as it was *)
Lemma import_param_Err sd sd_hf k (st st' : gmap loc Tensor) e :
  import_param sd sd_hf k st = (Err e, st') → st' = st.
Proof.
  unfold import_param, imp_bind, imp_lift, imp_deref, imp_assert, copy_.
  destruct (is_transposed k).
  - destruct (getitem sd_hf k) as [src|]; [|by intros [= _ <-]].
    destruct (getitem sd k) as [dst|]; [|by intros [= _ <-]].
    case_bool_decide; [|by intros [= _ <-]].
    destruct (Tensor_t src) as [srct|]; [|by intros [= _ <-]].
    unfold imp_bind, imp_deref. case_decide; [done|by intros [= _ <-]].
  - destruct (getitem sd_hf k) as [src|]; [|by intros [= _ <-]].
    destruct (getitem sd k) as [dst|]; [|by intros [= _ <-]].
    case_bool_decide; [|by intros [= _ <-]].
    unfold imp_bind, imp_deref. case_decide; [done|by intros [= _ <-]].
Qed.



Lemma imp_for_app {A} (l1 l2 : list A) (body : A → Import unit)
    (st st1 : gmap loc Tensor) :
  imp_for l1 body st = (Ok (), st1) →
  imp_for (l1 ++ l2) body st = imp_for l2 body st1.
Proof.
  revert st. induction l1 as [|a l1 IH]; intros st; simpl.
  - by intros [= <-].
  - unfold imp_bind. destruct (body a st) as [[[]|e] st'']; [|done].
    apply IH.
Qed.

End import_facts.
(** *** [Tensor_t] is the matrix transpose *)

Section transpose_facts.
Context {Sub : Substrate}.





End transpose_facts.
Section import_claims.
Context {Sub : Substrate}.


End import_claims.


(** C2, as the code has it: the count check comes before the loop, so a
    count mismatch raises with the store untouched; a check of the loop is
    made when the loop reaches its key, so when the keys before [k] have
    been imported and the step for [k] raises, the import raises that
    exception with the store as those imports left it. *)
Theorem C2_import_failure_points {Sub : Substrate} (model : GPT.t loc)
    (sd_hf : list (string * Tensor)) (st : gmap loc Tensor) :
  (length (foreign_keys sd_hf) ≠ length (local_keys (GPT_state_dict model)) →
   from_pretrained model sd_hf st =
   (Err (AssertionError
           (mismatched_keys_message (length (foreign_keys sd_hf))
              (length (local_keys (GPT_state_dict model))))), st)) ∧
  (∀ pre k post st1 st2 e,
     length (foreign_keys sd_hf) = length (local_keys (GPT_state_dict model)) →
     foreign_keys sd_hf = pre ++ k :: post →
     imp_for pre (import_param (GPT_state_dict model) sd_hf) st = (Ok (), st1) →
     import_param (GPT_state_dict model) sd_hf k st1 = (Err e, st2) →
     st2 = st1 ∧ from_pretrained model sd_hf st = (Err e, st1)).
Proof.
  split.
  - intros Hlen. unfold from_pretrained, imp_bind, imp_assert.
    by rewrite bool_decide_eq_false_2.
  - intros pre k post st1 st2 e Hlen Hkeys Hpre Hk.
    assert (st2 = st1) as -> by (by eapply import_param_Err).
    split; [done|].
    unfold from_pretrained. cbv zeta. unfold imp_bind at 1 2, imp_assert.
    rewrite bool_decide_eq_true_2 by done.
    rewrite Hkeys, (imp_for_app pre (k :: post) _ st st1) by done.
    simpl. unfold imp_bind at 1. by rewrite Hk.
Qed.
(** ** The statements at concrete inputs *)

(** [m] replaced by its value *)
Ltac evaluate m :=
  let x := eval vm_compute in m in
  replace m with x by (vm_compute; reflexivity).

Ltac proj_simpl :=
  cbn [GPT.config GPT.transformer GPT.lm_head GPT.wte GPT.wpe GPT.h GPT.ln_f
       Block.ln_1 Block.attn Block.ln_2 Block.mlp
       CausalSelfAttention.c_attn CausalSelfAttention.c_proj
       CausalSelfAttention.n_embd CausalSelfAttention.n_head
       MLP.c_fc MLP.c_proj Linear.weight Linear.bias Linear.NANOGPT_SCALE_INIT
       LayerNorm.weight LayerNorm.bias Embedding.weight shape data
       block_size vocab_size n_layer n_head n_embd].

(** one step on a statement about shapes or ranges of concrete data *)
Ltac wf_step :=
  match goal with
  | |- _ ∧ _ => split
  | |- Forall _ [] => apply Forall_nil_2
  | |- Forall _ (_ :: _) => apply Forall_cons_2
  | |- Forall2 _ [] [] => apply Forall2_nil_2
  | |- Forall2 _ (_ :: _) (_ :: _) => apply Forall2_cons_2
  | |- ∃ _, _ => eexists
  | |- _ = _ => reflexivity
  | |- _ <= _ => vm_compute; lia
  | |- _ < _ => vm_compute; lia
  | |- (_ ≤ _)%Z => lia
  | |- (_ < _)%Z => lia
  | |- _ => progress proj_simpl
  | |- _ => progress hnf
  end.

Ltac solve_wf := repeat wf_step.

(** C2 (the claim as stated fails): the checkpoint [sd_hf_bad_shape] has the
    right number of parameters and a position-embedding table of the wrong
    shape.  The import raises the assertion error, and the tensor of
    [transformer.wte.weight], which comes first, has been overwritten by
    then. *)
Lemma C2_counterexample :
  (from_pretrained graph_example (sd_hf_bad_shape 1%R) (store_example 0%R)).1 =
    Err (AssertionError "") ∧
  data (store_example 0%R !!! 16) = replicate 6 0%R ∧
  data ((from_pretrained graph_example (sd_hf_bad_shape 1%R)
           (store_example 0%R)).2 !!! 16) = replicate 6 1%R ∧
  (from_pretrained graph_example (sd_hf_bad_shape 1%R) (store_example 0%R)).2 ≠
    store_example 0%R.
Proof.
  split; [|split; [|split]]; try (vm_compute; reflexivity).
  intros H. apply (f_equal (λ st : gmap loc Tensor, data (st !!! 16))) in H.
  vm_compute in H. injection H as H _. exact (R1_neq_R0 H).
Qed.

(** C3 at a concrete input: two sequences that agree on position 0 only. *)
Lemma C3_witness :
  ∃ logits logits',
    GPT.forward (model_example 1%R) [[0; 1; 2]]%Z None = Ok (logits, None) ∧
    GPT.forward (model_example 1%R) [[0; 2; 1]]%Z None = Ok (logits', None) ∧
    take 1 <$> logits = take 1 <$> logits'.
Proof.
  apply (C3_causality (model_example 1%R) [[0; 1; 2]]%Z [[0; 2; 1]]%Z 1 3 0).
  - evaluate (model_example 1%R). solve_wf.
  - vm_compute. lia.
  - change (vocab_size _) with 3. solve_wf.
  - change (vocab_size _) with 3. solve_wf.
  - reflexivity.
Defined.

(** C4 at [GPT(config_example)]. *)
Lemma C4_witness :
  GPT_init config_example =
    Ok (graph_example, layout_example, GPT_apply_init_weights graph_example) ∧
  ∃ l : loc,
    Embedding.weight (GPT.wte (GPT.transformer graph_example)) = l ∧
    Linear.weight (GPT.lm_head graph_example) = l ∧
    getitem (GPT_state_dict graph_example) "transformer.wte.weight" = Ok l ∧
    getitem (GPT_state_dict graph_example) "lm_head.weight" = Ok l ∧
    ∀ (st : gmap loc Tensor) (t : Tensor),
      Embedding.weight (GPT.wte (GPT.transformer (GPT_deref st graph_example))) =
        Linear.weight (GPT.lm_head (GPT_deref st graph_example)) ∧
      Embedding.weight
        (GPT.wte (GPT.transformer (GPT_deref (<[l := t]> st) graph_example))) = t ∧
      Linear.weight (GPT.lm_head (GPT_deref (<[l := t]> st) graph_example)) = t.
Proof.
  split; [reflexivity|].
  apply (C4_weight_tying (Sub := Real) config_example graph_example layout_example
           (GPT_apply_init_weights graph_example)).
  reflexivity.
Defined.



(** C8 at a concrete input of shape [(1, 3)]. *)
Lemma C8_witness :
  ∃ logits,
    shape3 1 3 3 logits ∧
    GPT.forward (model_example 1%R) [[0; 1; 2]]%Z None = Ok (logits, None) ∧
    ∀ targets,
      valid_ids 1 3 3 targets →
      GPT.forward (model_example 1%R) [[0; 1; 2]]%Z (Some targets) =
      Ok (logits, Some (mean_cross_entropy logits targets)).
Proof.
  apply (C8_forward_result (model_example 1%R) [[0; 1; 2]]%Z 1 3).
  - evaluate (model_example 1%R). solve_wf.
  - vm_compute. lia.
  - change (vocab_size _) with 3. solve_wf.
Defined.

(** C9 at a concrete block and an input of shape [(1, 2, 2)]. *)
Lemma C9_witness :
  ∃ x' x'' : list (list (list R)),
    x' = add3 [[[1; 2]; [3; 4]]]%R
           (CausalSelfAttention.forward (Block.attn (block_example 1%R))
              (LayerNorm.forward (Block.ln_1 (block_example 1%R))
                 [[[1; 2]; [3; 4]]]%R)) ∧
    x'' = add3 x' (MLP.forward (Block.mlp (block_example 1%R))
                     (LayerNorm.forward (Block.ln_2 (block_example 1%R)) x')) ∧
    Block.forward (block_example 1%R) [[[1; 2]; [3; 4]]]%R = x'' ∧
    shape3 1 2 2 x' ∧
    shape3 1 2 2 x''.
Proof.
  apply (C9_block_pre_norm_residual config_example (block_example 1%R)
           [[[1; 2]; [3; 4]]]%R 1 2).
  - solve_wf.
  - solve_wf.
Defined.


Section position_wise.
Context {Sub : Substrate}.

Lemma mapM_Ok_lookup {A B} (f : A → result B) (l : list A) (k : list B) i x :
  mapM f l = Ok k → l !! i = Some x → ∃ y, k !! i = Some y ∧ f x = Ok y.
Proof.
  rewrite mapM_Ok. intros H Hx.
  destruct (Forall2_lookup_l _ _ _ _ _ H Hx) as (y & Hy & Hxy). eauto.
Qed.
End position_wise.

(** X1: the logits of a position depend on the token at that position only:
    two inputs of one shape that carry the same token at position [t] of
    sequence [b] give the same logits there, whatever the tokens before and
    after it are. *)
Theorem X1_logits_position_wise {Sub : Substrate} (m : GPT.t Tensor)
    (idx idx' : list (list Z)) (B T b t : nat) (tok : Z) :
  GPT_wf m →
  T < block_size (GPT.config m) →
  valid_ids B T (vocab_size (GPT.config m)) idx →
  valid_ids B T (vocab_size (GPT.config m)) idx' →
  idx !! b ≫= (.!! t) = Some tok →
  idx' !! b ≫= (.!! t) = Some tok →
  ∃ logits logits' v,
    GPT.forward m idx None = Ok (logits, None) ∧
    GPT.forward m idx' None = Ok (logits', None) ∧
    logits !! b ≫= (.!! t) = Some v ∧
    logits' !! b ≫= (.!! t) = Some v.
Proof.
  intros Hwf HT Hidx Hidx' Htok Htok'.
  pose proof (valid_ids_size2 _ _ _ _ Hidx) as Hsize.
  pose proof (valid_ids_size2 _ _ _ _ Hidx') as Hsize'.
  destruct (wpe_lookups_Ok m T Hwf HT) as (pos_embd & Hpos & Hlpos).
  destruct (wte_lookups_Ok m B T idx Hwf Hidx) as (tok_embd & Hemb & _).
  destruct (wte_lookups_Ok m B T idx' Hwf Hidx') as (tok_embd' & Hemb' & _).
  destruct (idx !! b) as [row|] eqn:Hrow; [|done].
  destruct (idx' !! b) as [row'|] eqn:Hrow'; [|done]. simpl in Htok, Htok'.
  destruct (mapM_Ok_lookup _ _ _ _ _ Hemb Hrow) as (erow & Herow & Hmrow).
  destruct (mapM_Ok_lookup _ _ _ _ _ Hemb' Hrow') as (erow' & Herow' & Hmrow').
  destruct (mapM_Ok_lookup _ _ _ _ _ Hmrow Htok) as (e & He & Hfe).
  destruct (mapM_Ok_lookup _ _ _ _ _ Hmrow' Htok') as (e' & He' & Hfe').
  assert (e' = e) as -> by congruence.
  assert (t < T) as Ht.
  { destruct Hidx as (_ & _ & _ & Hrows).
    rewrite Forall_lookup in Hrows. destruct (Hrows b row Hrow) as [<- _].
    by eapply lookup_lt_Some. }
  destruct (lookup_lt_is_Some_2 pos_embd t) as [p Hp]; [lia|].
  exists ((λ tok : list Vec, zip_with (position_logits m) pos_embd tok) <$> tok_embd),
         ((λ tok : list Vec, zip_with (position_logits m) pos_embd tok) <$> tok_embd'),
         (position_logits m p e).
  split; [|split; [|split]].
  - rewrite GPT_forward_eq, Hsize. cbn [snd].
    rewrite decide_True by done. by rewrite Hpos, bind_Ok, Hemb, bind_Ok.
  - rewrite GPT_forward_eq, Hsize'. cbn [snd].
    rewrite decide_True by done. by rewrite Hpos, bind_Ok, Hemb', bind_Ok.
  - rewrite list_lookup_fmap, Herow.
    change (zip_with (position_logits m) pos_embd erow !! t =
            Some (position_logits m p e)).
    by rewrite lookup_zip_with, Hp, He.
  - rewrite list_lookup_fmap, Herow'.
    change (zip_with (position_logits m) pos_embd erow' !! t =
            Some (position_logits m p e)).
    by rewrite lookup_zip_with, Hp, He'.
Qed.

(** X1 at a concrete input: position 1 carries token 1 in both sequences. *)
Lemma X1_witness :
  ∃ logits logits' v,
    GPT.forward (model_example 1%R) [[0; 1; 2]]%Z None = Ok (logits, None) ∧
    GPT.forward (model_example 1%R) [[2; 1; 0]]%Z None = Ok (logits', None) ∧
    logits !! 0 ≫= (.!! 1) = Some v ∧
    logits' !! 0 ≫= (.!! 1) = Some v.
Proof.
  apply (X1_logits_position_wise (model_example 1%R) [[0; 1; 2]]%Z
           [[2; 1; 0]]%Z 1 3 0 1 1%Z).
  - evaluate (model_example 1%R). solve_wf.
  - vm_compute. lia.
  - change (vocab_size _) with 3. solve_wf.
  - change (vocab_size _) with 3. solve_wf.
  - reflexivity.
  - reflexivity.
Defined.

(** The mismatched-checkpoint scenario.  A checkpoint with one parameter
    fewer than the model fails the count assertion, with the counts in the
    message, and the store is as it was. *)
Example import_example_one_fewer :
  length (foreign_keys (sd_hf_one_fewer 1%R)) = 17 ∧
  length (local_keys (GPT_state_dict graph_example)) = 18 ∧
  from_pretrained graph_example (sd_hf_one_fewer 1%R) (store_example 0%R) =
  (Err (AssertionError "mismatched keys: 17 != 18"), store_example 0%R).
Proof.
  split; [reflexivity|]. split; [reflexivity|].
  unfold from_pretrained, imp_bind, imp_assert.
  rewrite bool_decide_eq_false_2; [reflexivity|].
  vm_compute. lia.
Qed.

(** A checkpoint of matching names and shapes is imported whole.  The
    import returns the model object, and every tensor the model holds has
    the foreign entries afterwards (the tensor at reference 0 is the
    embedding table the constructor allocated before tying; no slot holds
    it). *)
Example import_example_success :
  from_pretrained graph_example (sd_hf_example 1%R) (store_example 0%R) =
  (Ok graph_example, <[0 := full [3; 2] 0%R]> (store_example 1%R)).
Proof. vm_compute. reflexivity. Qed.

(** ** The data loader *)

Lemma all_but_last_window {A} (l : list A) c n :
  c + n + 1 ≤ length l ∨ n = 0 →
  DataLoaderLite.all_but_last (DataLoaderLite.slice c (c + n + 1) l) = window c n l.
Proof.
  intros H. unfold DataLoaderLite.all_but_last, DataLoaderLite.slice, window.
  replace (c + n + 1 - c) with (n + 1) by lia.
  rewrite length_take, length_drop, take_take.
  replace (((n + 1) `min` (length l - c) - 1) `min` (n + 1)) with n; [done|].
  destruct H; lia.
Qed.

Lemma from_second_window {A} (l : list A) c n :
  DataLoaderLite.from_second (DataLoaderLite.slice c (c + n + 1) l) =
  window (c + 1) n l.
Proof.
  unfold DataLoaderLite.from_second, DataLoaderLite.slice, window.
  replace (c + n + 1 - c) with (1 + n) by lia.
  by rewrite <- take_drop_commute, drop_drop.
Qed.

Lemma window_length {A} (l : list A) c n :
  length (window c n l) = n `min` (length l - c).
Proof. unfold window. by rewrite length_take, length_drop. Qed.

Lemma next_batch_in_range B T tokens c :
  c + B * T + 1 ≤ length tokens ∨ B * T = 0 →
  DataLoaderLite.next_batch (DataLoaderLite.mk B T tokens c) =
  Ok (batch_at (DataLoaderLite.mk B T tokens c) c,
      DataLoaderLite.mk B T tokens (c + B * T)).
Proof.
  intros Hin. unfold DataLoaderLite.next_batch, batch_at. simpl.
  rewrite all_but_last_window by done. rewrite from_second_window.
  unfold DataLoaderLite.view. rewrite !window_length.
  assert ((B * T) `min` (length tokens - c) = B * T) as H1 by lia.
  assert ((B * T) `min` (length tokens - (c + 1)) = B * T) as H2 by lia.
  by rewrite !decide_True by done.
Qed.

Lemma next_batch_out_of_range B T tokens c :
  length tokens < c + B * T + 1 → 0 < B * T →
  DataLoaderLite.next_batch (DataLoaderLite.mk B T tokens c) = Err RuntimeError.
Proof.
  intros Hout Hpos. unfold DataLoaderLite.next_batch. simpl.
  unfold DataLoaderLite.view.
  destruct (decide (length (DataLoaderLite.all_but_last
              (DataLoaderLite.slice c (c + B * T + 1) tokens)) = B * T))
    as [Hlen|_]; [|reflexivity].
  exfalso. revert Hlen.
  unfold DataLoaderLite.all_but_last, DataLoaderLite.slice.
  rewrite length_take, length_take, length_drop. lia.
Qed.

(** X2: [next_batch] returns the [B*T] tokens at the read position as [x],
    the [B*T] tokens one position later as [y], and moves the read position
    by [B*T]; it does so exactly when [B*T + 1] tokens are left at the read
    position (or [B*T = 0]).  With fewer tokens left it raises, the slice
    being too short for [view(B, T)]: the loader never wraps around to the
    start of the stream. *)
Theorem X2_next_batch_outcome (self : DataLoaderLite.t) :
  ((DataLoaderLite.CurrentIdx self + DataLoaderLite.B self * DataLoaderLite.T self + 1
      ≤ length (DataLoaderLite.tokens self) ∨
    DataLoaderLite.B self * DataLoaderLite.T self = 0) ∧
   DataLoaderLite.next_batch self =
   Ok (batch_at self (DataLoaderLite.CurrentIdx self),
       at_position self (DataLoaderLite.CurrentIdx self +
                         DataLoaderLite.B self * DataLoaderLite.T self)))
  ∨
  (length (DataLoaderLite.tokens self) <
     DataLoaderLite.CurrentIdx self + DataLoaderLite.B self * DataLoaderLite.T self + 1 ∧
   0 < DataLoaderLite.B self * DataLoaderLite.T self ∧
   DataLoaderLite.next_batch self = Err RuntimeError).
Proof.
  destruct self as [B T tokens c]. simpl. unfold at_position. simpl.
  destruct (decide (c + B * T + 1 ≤ length tokens ∨ B * T = 0)) as [Hin|Hout].
  - left. split; [done|]. by apply next_batch_in_range.
  - right. split; [lia|]. split; [lia|].
    apply next_batch_out_of_range; lia.
Qed.

Lemma next_batch_Ok B T tokens c x y self' :
  DataLoaderLite.next_batch (DataLoaderLite.mk B T tokens c) = Ok (x, y, self') →
  (c + B * T + 1 ≤ length tokens ∨ B * T = 0) ∧
  (x, y) = batch_at (DataLoaderLite.mk B T tokens c) c ∧
  self' = DataLoaderLite.mk B T tokens (c + B * T).
Proof.
  intros H.
  destruct (decide (c + B * T + 1 ≤ length tokens ∨ B * T = 0)) as [Hin|Hout].
  - rewrite next_batch_in_range in H by done. by injection H as <- <-.
  - rewrite next_batch_out_of_range in H by lia. done.
Qed.

Lemma reshape_lookup_window {A} (l : list A) B T i :
  length l = B * T → i < B →
  reshape (replicate B T) l !! i = Some (window (i * T) T l).
Proof.
  intros Hlen Hi. destruct T as [|T].
  - clear Hlen. revert i l Hi. induction B as [|B IH]; intros i l Hi; [lia|].
    simpl. destruct i as [|i]; simpl; [by rewrite take_0|].
    rewrite drop_0, IH by lia. unfold window. by rewrite !take_0.
  - rewrite sublist_lookup_reshape by (done || lia).
    apply sublist_lookup_Some. nia.
Qed.

Lemma window_lookup {A} (l : list A) c n j :
  j < n → window c n l !! j = l !! (c + j).
Proof. intros Hj. unfold window. by rewrite lookup_take_lt, lookup_drop. Qed.

Lemma batch_entry {A} (l : list A) B T c i t :
  c + B * T ≤ length l → i < B → t < T →
  reshape (replicate B T) (window c (B * T) l) !! i ≫= (.!! t) =
  l !! (c + i * T + t).
Proof.
  intros Hlen Hi Ht.
  rewrite reshape_lookup_window by (rewrite ?window_length; lia). simpl.
  rewrite window_lookup by done. rewrite window_lookup by nia.
  f_equal. lia.
Qed.

(** X3: in a batch [(x, y)] that [next_batch] returns, entry [(i, t)] of [x]
    is the token [i*T + t] positions after the read position and entry
    [(i, t)] of [y] is the token after that one: each target is the next
    token of its input. *)
Theorem X3_next_batch_targets_shifted (self self' : DataLoaderLite.t)
    (x y : list (list Z)) (i t : nat) :
  DataLoaderLite.next_batch self = Ok (x, y, self') →
  i < DataLoaderLite.B self →
  t < DataLoaderLite.T self →
  ∃ a b,
    x !! i ≫= (.!! t) = Some a ∧
    y !! i ≫= (.!! t) = Some b ∧
    DataLoaderLite.tokens self
      !! (DataLoaderLite.CurrentIdx self + i * DataLoaderLite.T self + t) = Some a ∧
    DataLoaderLite.tokens self
      !! (DataLoaderLite.CurrentIdx self + i * DataLoaderLite.T self + t + 1) = Some b.
Proof.
  destruct self as [B T tokens c]. simpl. intros H Hi Ht.
  apply next_batch_Ok in H as (Hin & Hxy & _).
  unfold batch_at in Hxy. simpl in Hxy. injection Hxy as -> ->.
  assert (c + B * T + 1 ≤ length tokens) as Hlen by (destruct Hin; nia).
  assert (c + i * T + t + 1 < length tokens) as Hlt by nia.
  destruct (lookup_lt_is_Some_2 tokens (c + i * T + t)) as [a Ha]; [lia|].
  destruct (lookup_lt_is_Some_2 tokens (c + i * T + t + 1)) as [b Hb]; [lia|].
  exists a, b. rewrite !batch_entry by (done || lia).
  split; [done|]. split; [|done].
  by replace (c + 1 + i * T + t) with (c + i * T + t + 1) by lia.
Qed.

Lemma batch_at_at_position self c c' :
  batch_at (at_position self c) c' = batch_at self c'.
Proof. reflexivity. Qed.




(** ** The loader feeding the model *)

Section loader_model.
Context {Sub : Substrate}.

Lemma GPT_forward_valid (m : GPT.t Tensor) (idx targets : list (list Z)) B T :
  GPT_wf m → T < block_size (GPT.config m) →
  valid_ids B T (vocab_size (GPT.config m)) idx →
  valid_ids B T (vocab_size (GPT.config m)) targets →
  ∃ logits,
    shape3 B T (vocab_size (GPT.config m)) logits ∧
    GPT.forward m idx (Some targets) =
    Ok (logits, Some (mean_cross_entropy logits targets)).
Proof.
  intros Hwf HT Hidx Htg. pose proof (valid_ids_size2 _ _ _ _ Hidx) as Hsize.
  destruct (wpe_lookups_Ok m T Hwf HT) as (pos_embd & Hpos & Hlpos).
  destruct (wte_lookups_Ok m B T idx Hwf Hidx) as (tok_embd & Htok & HB & Hrows).
  pose proof (logits_shape3 m pos_embd tok_embd B T Hwf Hlpos HB Hrows) as Hshape.
  eexists. split; [exact Hshape|].
  rewrite GPT_forward_eq, Hsize. cbn [snd].
  rewrite decide_True by done. rewrite Hpos, bind_Ok, Htok, bind_Ok.
  cbv zeta.
  apply shape3_concat in Hshape as Hcat. destruct Hcat as [Hlen Hvs].
  apply valid_ids_concat in Htg as [Hlen' Hts].
  rewrite (cross_entropy_valid _ _ (vocab_size (GPT.config m)))
    by (done || lia).
  rewrite fmap_Ok, bind_Ok. unfold mean_cross_entropy.
  by rewrite (shape3_first_row B T _ _ Hshape), Hlen.
Qed.

Lemma reshape_valid_ids B T V (l : list Z) :
  0 < B → 0 < T → length l = B * T →
  Forall (λ i, 0 ≤ i < Z.of_nat V)%Z l →
  valid_ids B T V (reshape (replicate B T) l).
Proof.
  intros HB HT Hlen Hl. split; [done|]. split; [done|]. split.
  - by rewrite length_reshape, length_replicate.
  - apply Forall_lookup. intros i row Hrow.
    assert (i < B) as Hi.
    { apply lookup_lt_Some in Hrow.
      by rewrite length_reshape, length_replicate in Hrow. }
    rewrite reshape_lookup_window in Hrow by done. injection Hrow as <-. split.
    + rewrite window_length. nia.
    + unfold window. by apply Forall_take, Forall_drop.
Qed.
End loader_model.

(** X5: a batch of the loader is a valid input of the model.  When the
    tokens of the stream are in [[0, vocab_size)], [B] and [T] are positive
    and [T < block_size], then for every batch [(x, y)] that [next_batch]
    returns, [model(x, y)] returns logits of shape [(B, T, vocab_size)] and
    the mean cross-entropy of the logits against [y]. *)
Theorem X5_batch_is_valid_input {Sub : Substrate} (m : GPT.t Tensor)
    (self self' : DataLoaderLite.t) (x y : list (list Z)) :
  GPT_wf m →
  0 < DataLoaderLite.B self →
  0 < DataLoaderLite.T self →
  DataLoaderLite.T self < block_size (GPT.config m) →
  Forall (λ i, 0 ≤ i < Z.of_nat (vocab_size (GPT.config m)))%Z
         (DataLoaderLite.tokens self) →
  DataLoaderLite.next_batch self = Ok (x, y, self') →
  ∃ logits,
    shape3 (DataLoaderLite.B self) (DataLoaderLite.T self)
           (vocab_size (GPT.config m)) logits ∧
    GPT.forward m x (Some y) = Ok (logits, Some (mean_cross_entropy logits y)).
Proof.
  destruct self as [B T tokens c]. simpl. intros Hwf HB HT Hbs Htok H.
  apply next_batch_Ok in H as (Hin & Hxy & _).
  unfold batch_at in Hxy. simpl in Hxy. injection Hxy as -> ->.
  assert (c + B * T + 1 ≤ length tokens) as Hlen by (destruct Hin; nia).
  apply GPT_forward_valid; [done..| |].
  - apply reshape_valid_ids; [done..| |].
    + rewrite window_length. lia.
    + unfold window. by apply Forall_take, Forall_drop.
  - apply reshape_valid_ids; [done..| |].
    + rewrite window_length. lia.
    + unfold window. by apply Forall_take, Forall_drop.
Qed.

(** X3 at a concrete loader and entry [(0, 1)] of its first batch. *)
Lemma X3_witness :
  ∃ a b,
    [[0; 1; 2]]%Z !! 0 ≫= (.!! 1) = Some a ∧
    [[1; 2; 1]]%Z !! 0 ≫= (.!! 1) = Some b ∧
    DataLoaderLite.tokens loader_example
      !! (DataLoaderLite.CurrentIdx loader_example +
          0 * DataLoaderLite.T loader_example + 1) = Some a ∧
    DataLoaderLite.tokens loader_example
      !! (DataLoaderLite.CurrentIdx loader_example +
          0 * DataLoaderLite.T loader_example + 1 + 1) = Some b.
Proof.
  apply (X3_next_batch_targets_shifted loader_example
           (at_position loader_example 3) [[0; 1; 2]]%Z [[1; 2; 1]]%Z 0 1).
  - reflexivity.
  - simpl. lia.
  - simpl. lia.
Defined.

(** X5 at the first batch of a concrete loader. *)
Lemma X5_witness :
  ∃ logits,
    shape3 (DataLoaderLite.B loader_example) (DataLoaderLite.T loader_example)
           (vocab_size (GPT.config (model_example 1%R))) logits ∧
    GPT.forward (model_example 1%R) [[0; 1; 2]]%Z (Some [[1; 2; 1]]%Z) =
    Ok (logits, Some (mean_cross_entropy logits [[1; 2; 1]]%Z)).
Proof.
  apply (X5_batch_is_valid_input (model_example 1%R) loader_example
           (at_position loader_example 3) [[0; 1; 2]]%Z [[1; 2; 1]]%Z).
  - evaluate (model_example 1%R). solve_wf.
  - simpl. lia.
  - simpl. lia.
  - vm_compute. lia.
  - change (vocab_size _) with 3. simpl. solve_wf.
  - reflexivity.
Defined.
